(** * Clerk user webhook of Sanaa-Backend (apps/users)

    A shallow embedding of [apps/users/schemas.py] (payload validation and
    timestamp normalisation), [apps/users/views.py] (the [ClerkWebhook] view:
    signature check, validation, routing, [sync_user], [delete_user]) and of
    the table behind the [TenantUser] model.  The view and the admin import the
    model as [TenantUser]; [apps/users/models.py] declares its fields under the
    class name [User] (the tests import it as [TenantUser as User]), so the
    table below follows the fields and constraints declared there. *)

From Stdlib Require Import ZArith Ascii String List Bool Permutation.
From stdpp Require Import base gmap strings list fin_maps.
Import ListNotations.

Open Scope Z_scope.
Set Warnings "-register-all".

(** ** Python values produced by [json.loads]

    The model covers JSON [null], booleans, integers, strings, lists and
    objects; a Python [dict] is an association list read by its first
    binding.  JSON numbers with a fraction or an exponent (Python floats) are
    not represented. *)
Inductive pyval :=
| PNone
| PBool (b : bool)
| PInt (z : Z)
| PStr (s : string)
| PList (l : list pyval)
| PDict (d : list (string * pyval)).

Fixpoint dget (k : string) (d : list (string * pyval)) : option pyval :=
  match d with
  | [] => None
  | (k', v) :: d' => if String.eqb k k' then Some v else dget k d'
  end.

(** ** Doubles, as the exact values they denote

    [to_iso] computes [value / 1000] in double precision and
    [datetime.utcfromtimestamp] splits the double into seconds and rounded
    microseconds.  A finite double is kept as [dnum * 2 ^ dexp]; every
    operation below is the IEEE one, i.e. the exact result rounded to the
    nearest double, ties to even (no subnormal arises at these magnitudes). *)
Record dbl := Dbl { dnum : Z ; dexp : Z }.

(** [n / d] rounded to the nearest integer, ties to even ([d > 0]). *)
Definition round_half_even (n d : Z) : Z :=
  let q := n / d in
  let r := n mod d in
  match Z.compare (2 * r) d with
  | Lt => q
  | Gt => q + 1
  | Eq => if Z.even q then q else q + 1
  end.

(** [a >= d * 2 ^ j] for [a, d > 0]. *)
Definition ge_scaled (a d j : Z) : bool :=
  if 0 <=? j then d * 2 ^ j <=? a else d <=? a * 2 ^ (- j).

(** The double nearest to the rational [n / d] ([d > 0]), 53-bit significand. *)
Definition round_to_double (n d : Z) : dbl :=
  if n =? 0 then Dbl 0 0 else
  let a := Z.abs n in
  let k0 := Z.log2 a - Z.log2 d - 52 in
  let k := if ge_scaled a d (k0 + 52) then k0 else k0 - 1 in
  let m := if 0 <=? k then round_half_even a (d * 2 ^ k)
           else round_half_even (a * 2 ^ (- k)) d in
  Dbl (Z.sgn n * m) k.

(** Numerator and (positive) denominator of a double. *)
Definition dbl_num (x : dbl) : Z :=
  if 0 <=? dexp x then dnum x * 2 ^ dexp x else dnum x.
Definition dbl_den (x : dbl) : Z :=
  if 0 <=? dexp x then 1 else 2 ^ (- dexp x).

(** C [modf]: integral part (truncated towards zero) and the exact
    fractional part, given as a numerator over [dbl_den x]. *)
Definition modf (x : dbl) : Z * Z :=
  let ip := Z.quot (dbl_num x) (dbl_den x) in
  (ip, dbl_num x - ip * dbl_den x).

(** ** [datetime.utcfromtimestamp] on a double

    CPython's [_PyTime_DoubleToDenominator] with [_PyTime_ROUND_HALF_EVEN]:
    [floatpart = modf(d, &intpart); floatpart *= 1e6; floatpart =
    round_half_even(floatpart)], carried into [intpart] when it leaves
    [0, 1e6); then the [time_t] range check, [gmtime] and the year range
    [MINYEAR..MAXYEAR] of [datetime].  [None] is a raised exception
    ([OverflowError], [OSError] or [ValueError]). *)
Record py_datetime := PyDatetime {
  year : Z; month : Z; day : Z; hour : Z; minute : Z; second : Z; microsecond : Z }.

(** Proleptic Gregorian civil date of a day count since 1970-01-01, as
    [gmtime] computes it. *)
Definition civil_from_days (z : Z) : Z * Z * Z :=
  let z := z + 719468 in
  let era := z / 146097 in
  let doe := z - era * 146097 in
  let yoe := (doe - doe / 1460 + doe / 36524 - doe / 146096) / 365 in
  let y := yoe + era * 400 in
  let doy := doe - (365 * yoe + yoe / 4 - yoe / 100) in
  let mp := (5 * doy + 2) / 153 in
  let d := doy - (153 * mp + 2) / 5 + 1 in
  let m := if mp <? 10 then mp + 3 else mp - 9 in
  (if m <=? 2 then y + 1 else y, m, d).

(** [_PyTime_ObjectToTimeval] on a double: whole seconds and rounded
    microseconds. *)
Definition timestamp_to_timeval (t : dbl) : Z * Z :=
  let '(ip, fnum) := modf t in
  let fp := round_to_double (fnum * 1000000) (dbl_den t) in
  let us := round_half_even (dbl_num fp) (dbl_den fp) in
  if 1000000 <=? us then (ip + 1, us - 1000000)
  else if us <? 0 then (ip - 1, us + 1000000) else (ip, us).

(** The [time_t] range check, [gmtime] and [datetime]'s year range. *)
Definition gmtime_datetime (ip us : Z) : option py_datetime :=
  if negb ((- 2 ^ 63 <=? ip) && (ip <? 2 ^ 63)) then None else
  let days := ip / 86400 in
  let sod := ip mod 86400 in
  let '(y, mo, d) := civil_from_days days in
  if (1 <=? y) && (y <=? 9999) then
    Some (PyDatetime y mo d (sod / 3600) ((sod mod 3600) / 60) (sod mod 60) us)
  else None.

Definition utcfromtimestamp (t : dbl) : option py_datetime :=
  let '(ip, us) := timestamp_to_timeval t in gmtime_datetime ip us.

(** Zero-padded decimal of width [w] ([%0wd] for [0 <= n < 10 ^ w]). *)
Fixpoint zpad (w : nat) (n : Z) : string :=
  match w with
  | O => ""
  | S w' => zpad w' (n / 10) +:+ String (ascii_of_nat (48 + Z.to_nat (n mod 10))) ""
  end.

(** [datetime.isoformat()]: [YYYY-MM-DDTHH:MM:SS], then [.ffffff] when the
    microsecond is not zero. *)
Definition isoformat (t : py_datetime) : string :=
  zpad 4 (year t) +:+ "-" +:+ zpad 2 (month t) +:+ "-" +:+ zpad 2 (day t) +:+ "T"
  +:+ zpad 2 (hour t) +:+ ":" +:+ zpad 2 (minute t) +:+ ":" +:+ zpad 2 (second t)
  +:+ (if microsecond t =? 0 then "" else "." +:+ zpad 6 (microsecond t)).

(** Python's true division [value / 1000] of an int: the correctly rounded
    quotient, [OverflowError] when it exceeds the double range. *)
Definition int_div_1000 (value : Z) : option dbl :=
  let q := round_to_double value 1000 in
  if 1024 <=? Z.log2 (Z.abs (dnum q)) + dexp q then None else Some q.

(** [utcfromtimestamp(value / 1000).isoformat()] for an int [value];
    [None] when a step raises. *)
Definition ms_to_iso (value : Z) : option (option string) :=
  match int_div_1000 value with
  | None => None
  | Some t =>
      match utcfromtimestamp t with
      | Some dt => Some (Some (isoformat dt))
      | None => None
      end
  end.

(** ** Validation results of pydantic (lax mode on Python input)

    [Some x] is the validated value, [None] a [ValidationError] (or any other
    exception raised while validating). *)
Definition v_str (v : pyval) : option string :=
  match v with PStr s => Some s | _ => None end.

Definition v_opt_str (v : pyval) : option (option string) :=
  match v with PNone => Some None | PStr s => Some (Some s) | _ => None end.

Definition ascii_lower (c : ascii) : ascii :=
  let n := nat_of_ascii c in
  if (Nat.leb 65 n && Nat.leb n 90)%bool then ascii_of_nat (n + 32) else c.

Fixpoint str_lower (s : string) : string :=
  match s with EmptyString => EmptyString | String c s' => String (ascii_lower c) (str_lower s') end.

(** pydantic-core's [str_as_bool]: ["0"]/["1"] exactly, the words up to
    ASCII case. *)
Definition str_as_bool (s : string) : option bool :=
  if String.eqb s "0" then Some false
  else if existsb (String.eqb (str_lower s)) ["f"; "n"; "no"; "off"; "false"] then Some false
  else if String.eqb s "1" then Some true
  else if existsb (String.eqb (str_lower s)) ["t"; "y"; "on"; "yes"; "true"] then Some true
  else None.

Definition v_opt_bool (v : pyval) : option (option bool) :=
  match v with
  | PNone => Some None
  | PBool b => Some (Some b)
  | PInt 0 => Some (Some false)
  | PInt 1 => Some (Some true)
  | PStr s => option_map Some (str_as_bool s)
  | _ => None
  end.

Fixpoint map_validate {A} (f : pyval -> option A) (l : list pyval) : option (list A) :=
  match l with
  | [] => Some []
  | v :: l' => x ← f v; xs ← map_validate f l'; Some (x :: xs)
  end.

(** A field with a default: the default is used, unvalidated, when the key
    is absent. *)
Definition field_default {A} (d : list (string * pyval)) (k : string) (default : A)
    (f : pyval -> option A) : option A :=
  match dget k d with None => Some default | Some v => f v end.

Definition field_required {A} (d : list (string * pyval)) (k : string)
    (f : pyval -> option A) : option A :=
  match dget k d with None => None | Some v => f v end.

Module ClerkEmail.
Record t := mk { id : string ; email_address : string }.
End ClerkEmail.

Module ClerkPhone.
Record t := mk { id : string ; phone_number : string }.
End ClerkPhone.

Module ClerkUser.
Record t := mk {
  id : string ;
  first_name : option string ;
  last_name : option string ;
  image_url : option string ;
  two_factor_enabled : option bool ;
  created_at : option string ;
  updated_at : option string ;
  last_active_at : option string ;
  email_addresses : list ClerkEmail.t ;
  primary_email_address_id : option string ;
  phone_numbers : list ClerkPhone.t ;
  primary_phone_number_id : option string }.
End ClerkUser.

Module ClerkWebhookEvent.
Record t := mk { type : string ; data : ClerkUser.t }.
End ClerkWebhookEvent.

Definition validate_email (v : pyval) : option ClerkEmail.t :=
  match v with
  | PDict d =>
      i ← field_required d "id" v_str;
      a ← field_required d "email_address" v_str;
      Some (ClerkEmail.mk i a)
  | _ => None
  end.

Definition validate_phone (v : pyval) : option ClerkPhone.t :=
  match v with
  | PDict d =>
      i ← field_required d "id" v_str;
      n ← field_required d "phone_number" v_str;
      Some (ClerkPhone.mk i n)
  | _ => None
  end.

Definition v_list {A} (f : pyval -> option A) (v : pyval) : option (list A) :=
  match v with PList l => map_validate f l | _ => None end.

(** ** The table of [TenantUser] rows ([apps/users/models.py]) *)
Module TenantUser.
Record t := mk {
  user_id : string ;
  first_name : string ;
  last_name : string ;
  primary_email : string ;
  phone_number : string ;
  is_creator : bool ;
  is_signedin : bool ;
  created_at : string ;
  updated_at : string ;
  last_active_at : string ;
  locked : bool ;
  banned : bool ;
  profile_image : string ;
  two_factor_enabled : bool }.
End TenantUser.

(** The [defaults] dict that [sync_user] passes to [update_or_create]. *)
Module Defaults.
Record t := mk {
  first_name : string ;
  last_name : string ;
  primary_email : string ;
  phone_number : string ;
  profile_image : string ;
  two_factor_enabled : bool ;
  is_signedin : bool ;
  created_at : string ;
  updated_at : string ;
  last_active_at : string }.
End Defaults.

Abbreviation table := (gmap string TenantUser.t).

(** [primary_email] is declared [unique=True]: a row with key [k] may not
    carry an address another row already holds.  (The [max_length] limits
    are backend dependent and not modelled.) *)
Definition email_taken (s : table) (k e : string) : bool :=
  negb (bool_decide (map_Forall (fun k' (r : TenantUser.t) => k' = k \/ TenantUser.primary_email r <> e) s)).

(** [INSERT] of the row [r] under the primary key [k]: the primary key and
    the unique [primary_email] are checked; [None] is an [IntegrityError]. *)
Definition insert_row (s : table) (k : string) (r : TenantUser.t) : option table :=
  if bool_decide (is_Some (s !! k)) || email_taken s k (TenantUser.primary_email r)
  then None else Some (<[k := r]> s).

(** [UPDATE ... WHERE user_id = k] with the values of the row [r]. *)
Definition update_row (s : table) (k : string) (r : TenantUser.t) : option table :=
  if email_taken s k (TenantUser.primary_email r)
  then None else Some (<[k := r]> s).

(** [TenantUser(user_id=k, **defaults)]: the fields the defaults do not
    name take their model defaults ([BooleanField(default=False)]). *)
Definition new_row (k : string) (d : Defaults.t) : TenantUser.t :=
  TenantUser.mk k (Defaults.first_name d) (Defaults.last_name d) (Defaults.primary_email d)
    (Defaults.phone_number d) false (Defaults.is_signedin d) (Defaults.created_at d)
    (Defaults.updated_at d) (Defaults.last_active_at d) false false
    (Defaults.profile_image d) (Defaults.two_factor_enabled d).

(** [for k, v in defaults: setattr(obj, k, v)]. *)
Definition set_defaults (obj : TenantUser.t) (d : Defaults.t) : TenantUser.t :=
  TenantUser.mk (TenantUser.user_id obj) (Defaults.first_name d) (Defaults.last_name d)
    (Defaults.primary_email d) (Defaults.phone_number d) (TenantUser.is_creator obj)
    (Defaults.is_signedin d) (Defaults.created_at d) (Defaults.updated_at d)
    (Defaults.last_active_at d) (TenantUser.locked obj) (TenantUser.banned obj)
    (Defaults.profile_image d) (Defaults.two_factor_enabled d).

(** The update half of [update_or_create]: set the defaults on the row read
    [select_for_update] (found by [user_id=k], so its primary key is [k])
    and [save(update_fields=defaults)]. *)
Definition update_existing (s : table) (k : string) (obj : TenantUser.t) (d : Defaults.t)
    : option (TenantUser.t * bool * table) :=
  let obj' := set_defaults obj d in
  s' ← update_row s k obj'; Some (obj', false, s').

(** Django's [QuerySet.update_or_create(user_id=k, defaults=d)], inside its
    [transaction.atomic]: [get_or_create] (a [get], else a [create] whose
    [IntegrityError] is answered by a second [get], re-raising when that
    finds nothing), then the update of an existing row.  [None] is an
    [IntegrityError] leaving the table as it was. *)
Definition update_or_create (s : table) (k : string) (d : Defaults.t)
    : option (TenantUser.t * bool * table) :=
  match s !! k with
  | Some obj => update_existing s k obj d
  | None =>
      match insert_row s k (new_row k d) with
      | Some s' => Some (new_row k d, true, s')
      | None =>
          match s !! k with
          | Some obj => update_existing s k obj d
          | None => None
          end
      end
  end.

(** ** Responses *)
Inductive outcome :=
| Respond (status : Z) (key : string) (message : string)
| ServerError.

Definition ok (message : string) : outcome := Respond 200 "message" message.
Definition bad (message : string) : outcome := Respond 400 "error" message.

(** ** [ClerkWebhook.sync_user] and [ClerkWebhook.delete_user] *)

(** [next((e.email_address for e in L if e.id == pid), default)]. *)
Fixpoint next_email (pid : option string) (l : list ClerkEmail.t) (default : string) : string :=
  match l with
  | [] => default
  | e :: l' => if bool_decide (Some (ClerkEmail.id e) = pid) then ClerkEmail.email_address e
               else next_email pid l' default
  end.

Fixpoint next_phone (pid : option string) (l : list ClerkPhone.t) (default : string) : string :=
  match l with
  | [] => default
  | p :: l' => if bool_decide (Some (ClerkPhone.id p) = pid) then ClerkPhone.phone_number p
               else next_phone pid l' default
  end.

Definition resolve_primary_email (user : ClerkUser.t) : option string :=
  match ClerkUser.email_addresses user with
  | [] => None
  | e0 :: _ => Some (next_email (ClerkUser.primary_email_address_id user)
                       (ClerkUser.email_addresses user) (ClerkEmail.email_address e0))
  end.

Definition resolve_primary_phone (user : ClerkUser.t) : option string :=
  match ClerkUser.phone_numbers user with
  | [] => None
  | p0 :: _ => Some (next_phone (ClerkUser.primary_phone_number_id user)
                       (ClerkUser.phone_numbers user) (ClerkPhone.phone_number p0))
  end.

(** Python's [x or ""] on an optional string, [x or False] on an optional bool. *)
Definition or_empty (x : option string) : string :=
  match x with Some s => s | None => "" end.
Definition or_false (x : option bool) : bool :=
  match x with Some b => b | None => false end.

Definition sync_defaults (user : ClerkUser.t) : Defaults.t :=
  Defaults.mk (or_empty (ClerkUser.first_name user)) (or_empty (ClerkUser.last_name user))
    (or_empty (resolve_primary_email user)) (or_empty (resolve_primary_phone user))
    (or_empty (ClerkUser.image_url user)) (or_false (ClerkUser.two_factor_enabled user))
    true (or_empty (ClerkUser.created_at user)) (or_empty (ClerkUser.updated_at user))
    (or_empty (ClerkUser.last_active_at user)).

(** [@transaction.atomic sync_user]: an [IntegrityError] propagates out of
    the view (a server error) and the transaction is rolled back. *)
Definition sync_user (s : table) (user : ClerkUser.t) : outcome * table :=
  match update_or_create s (ClerkUser.id user) (sync_defaults user) with
  | Some (_, created, s') => (ok (if created then "User created" else "User updated"), s')
  | None => (ServerError, s)
  end.

(** [TenantUser.objects.filter(user_id=user_id).delete()]. *)
Definition delete_user (s : table) (user_id : string) : outcome * table :=
  (ok "User deleted", delete user_id s).

(** ** The view, over the libraries it calls *)
Section Webhook.

(** Python's [str(value)] on a value that is neither [None], an int nor a
    string (a list or a dict). *)
Variable py_str : pyval -> string.

(** [json.loads(request.body)]; [None] when it raises. *)
Variable json_loads : string -> option pyval.

(** [Webhook(SIGNING_SECRET).verify(body, headers)] once the three headers
    are present: the HMAC signature and timestamp tolerance check of svix
    under the configured secret, on [svix-id], [svix-timestamp],
    [svix-signature] and the body. *)
Variable sig_valid : string -> string -> string -> string -> bool.

(** [to_iso] ([schemas.py]); [None] when it raises.  [isinstance(value, int)]
    holds for Python's [True] and [False] too. *)
Definition to_iso (value : pyval) : option (option string) :=
  match value with
  | PNone => Some None
  | PBool b => ms_to_iso (if b then 1 else 0)
  | PInt z => ms_to_iso z
  | PStr s => Some (Some s)
  | v => Some (Some (py_str v))
  end.

(** [ClerkUser.convert_timestamps] ([mode="before"]) followed by
    [Optional[Union[int, str]]]: the converted value is [None] or a string
    and passes; an absent key keeps the default [None], unvalidated. *)
Definition v_timestamp (v : pyval) : option (option string) := to_iso v.

(** [ClerkUser.model_validate] on a dict; unknown keys are ignored
    (pydantic's default [extra="ignore"]). *)
Definition validate_user_dict (d : list (string * pyval)) : option ClerkUser.t :=
  id ← field_required d "id" v_str;
  first_name ← field_default d "first_name" (Some "") v_opt_str;
  last_name ← field_default d "last_name" (Some "") v_opt_str;
  image_url ← field_default d "image_url" (Some "") v_opt_str;
  two_factor_enabled ← field_default d "two_factor_enabled" (Some false) v_opt_bool;
  created_at ← field_default d "created_at" None v_timestamp;
  updated_at ← field_default d "updated_at" None v_timestamp;
  last_active_at ← field_default d "last_active_at" None v_timestamp;
  email_addresses ← field_default d "email_addresses" [] (v_list validate_email);
  primary_email_address_id ← field_default d "primary_email_address_id" None v_opt_str;
  phone_numbers ← field_default d "phone_numbers" [] (v_list validate_phone);
  primary_phone_number_id ← field_default d "primary_phone_number_id" None v_opt_str;
  Some (ClerkUser.mk id first_name last_name image_url two_factor_enabled created_at
          updated_at last_active_at email_addresses primary_email_address_id
          phone_numbers primary_phone_number_id).

Definition validate_user (v : pyval) : option ClerkUser.t :=
  match v with PDict d => validate_user_dict d | _ => None end.

(** [ClerkWebhookEvent.model_validate(payload)]. *)
Definition validate_event (payload : pyval) : option ClerkWebhookEvent.t :=
  match payload with
  | PDict d =>
      type ← field_required d "type" v_str;
      data ← field_required d "data" validate_user;
      Some (ClerkWebhookEvent.mk type data)
  | _ => None
  end.

Record request := Request {
  svix_id : option string ;
  svix_timestamp : option string ;
  svix_signature : option string ;
  body : string }.

(** Python truthiness of a header value. *)
Definition present (h : option string) : bool :=
  match h with Some v => negb (String.eqb v "") | None => false end.

(** [wh.verify(request.body, svix_headers)] does not raise: svix first
    raises ["Missing required headers"] unless all three are truthy. *)
Definition wh_verify (req : request) : bool :=
  match svix_id req, svix_timestamp req, svix_signature req with
  | Some i, Some t, Some sg =>
      if present (svix_id req) && present (svix_timestamp req) && present (svix_signature req)
      then sig_valid i t sg (body req) else false
  | _, _, _ => false
  end.

(** Steps 2 and 3 of [ClerkWebhook.post] on the decoded body. *)
Definition handle_payload (s : table) (payload : pyval) : outcome * table :=
  match validate_event payload with
  | None => (bad "Invalid payload format", s)
  | Some event =>
      let user_data := ClerkWebhookEvent.data event in
      let type := ClerkWebhookEvent.type event in
      if String.eqb type "user.created" || String.eqb type "user.updated" then sync_user s user_data
      else if String.eqb type "user.deleted" then delete_user s (ClerkUser.id user_data)
      else (ok "Event ignored", s)
  end.

(** [ClerkWebhook.post]. *)
Definition post (s : table) (req : request) : outcome * table :=
  if negb (wh_verify req) then (bad "Invalid webhook signature", s)
  else match json_loads (body req) with
       | None => (bad "Invalid payload format", s)
       | Some payload => handle_payload s payload
       end.

(** The table after a sequence of deliveries, from the empty table. *)
Fixpoint run (s : table) (reqs : list request) : table :=
  match reqs with
  | [] => s
  | r :: reqs' => run (snd (post s r)) reqs'
  end.

End Webhook.

(** ** Reading of the spec used by the statements *)

(** The ten fields [sync_user] maps, read back from a row. *)
Definition mapped_fields (r : TenantUser.t) : Defaults.t :=
  Defaults.mk (TenantUser.first_name r) (TenantUser.last_name r) (TenantUser.primary_email r)
    (TenantUser.phone_number r) (TenantUser.profile_image r) (TenantUser.two_factor_enabled r)
    (TenantUser.is_signedin r) (TenantUser.created_at r) (TenantUser.updated_at r)
    (TenantUser.last_active_at r).

(** The ISO-8601 string of the exact instant [value] milliseconds after the
    epoch (whole seconds [value / 1000], microseconds [(value mod 1000) *
    1000]), through the same [gmtime] and [isoformat]: the conversion the
    spec describes, for comparison with [to_iso]. *)
Definition spec_ms_iso (value : Z) : option string :=
  option_map isoformat (gmtime_datetime (value / 1000) ((value mod 1000) * 1000)).


(** No two rows hold the same [primary_email]. *)
Definition emails_unique (s : table) : Prop :=
  forall k1 k2 r1 r2, s !! k1 = Some r1 -> s !! k2 = Some r2 ->
    TenantUser.primary_email r1 = TenantUser.primary_email r2 -> k1 = k2.

(** The keys [ClerkUser] declares. *)
Definition clerk_user_fields : list string :=
  ["id"; "first_name"; "last_name"; "image_url"; "two_factor_enabled"; "created_at";
   "updated_at"; "last_active_at"; "email_addresses"; "primary_email_address_id";
   "phone_numbers"; "primary_phone_number_id"].

Definition unknown_user_keys (extra : list (string * pyval)) : bool :=
  forallb (fun kv => negb (existsb (String.eqb (fst kv)) clerk_user_fields)) extra.

Definition unknown_event_keys (extra : list (string * pyval)) : bool :=
  forallb (fun kv => negb (String.eqb (fst kv) "type" || String.eqb (fst kv) "data")) extra.

(** The body does not decode to a valid [ClerkWebhookEvent]. *)
Definition payload_rejected (py_str : pyval -> string) (json_loads : string -> option pyval)
    (req : request) : bool :=
  match json_loads (body req) with
  | None => true
  | Some p => match validate_event py_str p with None => true | Some _ => false end
  end.

(** ** Concrete deliveries (after [apps/users/tests.py]) *)

Definition str_of_py (_ : pyval) : string := "".
Definition accept_all (_ _ _ _ : string) : bool := true.
Definition loads_as (p : pyval) (_ : string) : option pyval := Some p.

Definition req_signed : request :=
  Request (Some "msg_123") (Some "1234567890") (Some "v1,signature") "{}".

Definition envelope (type : string) (data : list (string * pyval)) : pyval :=
  PDict [("type", PStr type); ("data", PDict data)].

Definition user_123_data (email : string) : list (string * pyval) :=
  [("id", PStr "user_123"); ("first_name", PStr "Test"); ("last_name", PStr "User");
   ("image_url", PStr "http://example.com/image.jpg"); ("two_factor_enabled", PBool false);
   ("created_at", PInt 1672531200000); ("updated_at", PInt 1672531200000);
   ("last_active_at", PInt 1672531200000);
   ("email_addresses", PList [PDict [("id", PStr "email_1"); ("email_address", PStr email)]]);
   ("primary_email_address_id", PStr "email_1");
   ("phone_numbers", PList [PDict [("id", PStr "phone_1"); ("phone_number", PStr "+1234567890")]]);
   ("primary_phone_number_id", PStr "phone_1")].

Definition user_123 (email : string) : ClerkUser.t :=
  ClerkUser.mk "user_123" (Some "Test") (Some "User") (Some "http://example.com/image.jpg")
    (Some false) (Some "2023-01-01T00:00:00") (Some "2023-01-01T00:00:00")
    (Some "2023-01-01T00:00:00") [ClerkEmail.mk "email_1" email] (Some "email_1")
    [ClerkPhone.mk "phone_1" "+1234567890"] (Some "phone_1").



(** A row as [TenantUser.objects.create(user_id=k, first_name="Old",
    primary_email=e)] leaves it. *)
Definition old_row (k e : string) : TenantUser.t :=
  TenantUser.mk k "Old" "" e "" false false "" "" "" false false "" false.

(** [user_123] holds [old@example.com] and [user_456] holds
    [test@example.com]. *)
Definition store_two : table :=
  {["user_123" := old_row "user_123" "old@example.com";
    "user_456" := old_row "user_456" "test@example.com"]}.

(** A delivery carrying the identifier only. *)
Definition user_9 : ClerkUser.t :=
  ClerkUser.mk "user_9" (Some "") (Some "") (Some "") (Some false) None None None [] None [] None.

(** [user_456] already holds [test@example.com]. *)
Definition store_456 : table := {["user_456" := old_row "user_456" "test@example.com"]}.

(** ** Row invariants and further data *)

(** A row as the webhook leaves it: signed in, not a creator, not locked and
    not banned. *)
Definition webhook_row (r : TenantUser.t) : Prop :=
  TenantUser.is_signedin r = true /\ TenantUser.is_creator r = false /\
  TenantUser.locked r = false /\ TenantUser.banned r = false.

(** [user_123] as a creator whom an administrator has locked and banned. *)
Definition store_banned : table :=
  {["user_123" := TenantUser.mk "user_123" "Old" "" "old@example.com" "" true true "" "" ""
                    true true "" false]}.

(** A user whose second email entry lacks its [email_address]. *)
Definition user_bad_email_data : list (string * pyval) :=
  [("id", PStr "user_8");
   ("email_addresses", PList [PDict [("id", PStr "email_1"); ("email_address", PStr "a@b.c")];
                              PDict [("id", PStr "email_2")]])].

(** ** Lemmas on the table operations *)

Lemma email_taken_false s k e :
  email_taken s k e = false ->
  forall k' r, s !! k' = Some r -> k' <> k -> TenantUser.primary_email r <> e.
Proof.
  unfold email_taken. intros H k' r Hk' Hne.
  apply negb_false_iff in H. apply bool_decide_eq_true in H.
  destruct (H k' r Hk'); congruence.
Qed.

Lemma email_taken_true s k e :
  email_taken s k e = true ->
  exists k' r, s !! k' = Some r /\ k' <> k /\ TenantUser.primary_email r = e.
Proof.
  unfold email_taken. intros H. apply negb_true_iff in H. apply bool_decide_eq_false in H.
  apply map_not_Forall in H; [| intros; apply _].
  destruct H as (k' & r & Hk' & Hn). exists k', r. split; [done |].
  destruct (decide (k' = k)); [tauto |]. split; [done |].
  destruct (decide (TenantUser.primary_email r = e)); tauto.
Qed.

(** [sync_user] in closed form: an insert or an overwrite of the mapped
    fields, or an [IntegrityError] when another row holds the address. *)
Lemma sync_user_eq s u :
  sync_user s u =
  let k := ClerkUser.id u in
  let d := sync_defaults u in
  if email_taken s k (Defaults.primary_email d) then (ServerError, s)
  else match s !! k with
       | None => (ok "User created", <[k := new_row k d]> s)
       | Some old => (ok "User updated", <[k := set_defaults old d]> s)
       end.
Proof.
  unfold sync_user, update_or_create, update_existing, update_row, insert_row. simpl.
  destruct (s !! ClerkUser.id u) as [old|] eqn:E; simpl.
  - destruct (email_taken _ _ _); reflexivity.
  - destruct (email_taken _ _ _); simpl; rewrite ?E; reflexivity.
Qed.

Lemma sync_user_store s u :
  snd (sync_user s u) = s \/
  (email_taken s (ClerkUser.id u) (Defaults.primary_email (sync_defaults u)) = false /\
   exists r, snd (sync_user s u) = <[ClerkUser.id u := r]> s /\
   TenantUser.primary_email r = Defaults.primary_email (sync_defaults u)).
Proof.
  rewrite sync_user_eq. simpl.
  destruct (email_taken _ _ _) eqn:T; [left; reflexivity | right; split; [done |]].
  destruct (s !! ClerkUser.id u); eexists; split; reflexivity.
Qed.

Lemma post_store py_str json_loads sig_valid s req :
  snd (post py_str json_loads sig_valid s req) = s \/
  (exists k, snd (post py_str json_loads sig_valid s req) = delete k s) \/
  (exists u, snd (post py_str json_loads sig_valid s req) = snd (sync_user s u)).
Proof.
  unfold post. destruct (negb _); [left; reflexivity |].
  destruct (json_loads (body req)) as [p|]; [| left; reflexivity].
  unfold handle_payload. destruct (validate_event py_str p) as [ev|]; [| left; reflexivity].
  destruct (_ || _); [right; right; eexists; reflexivity |].
  destruct (String.eqb _ _); [right; left; eexists; reflexivity | left; reflexivity].
Qed.

(** Peel the option binds of a validator. *)
Ltac peel_binds H :=
  repeat match type of H with
  | context [mbind _ ?m] => let E := fresh "E" in destruct m eqn:E; cbn in H; [| discriminate H]
  end.

Lemma validate_user_dict_fields py_str d u :
  validate_user_dict py_str d = Some u ->
  field_default d "created_at" None (v_timestamp py_str) = Some (ClerkUser.created_at u) /\
  field_default d "updated_at" None (v_timestamp py_str) = Some (ClerkUser.updated_at u) /\
  field_default d "last_active_at" None (v_timestamp py_str) = Some (ClerkUser.last_active_at u).
Proof.
  unfold validate_user_dict. intros H. peel_binds H.
  injection H as <-. cbn. auto.
Qed.

Lemma timestamp_none_of_absent py_str d k x :
  field_default d k None (v_timestamp py_str) = Some x ->
  (dget k d = None \/ dget k d = Some PNone) -> x = None.
Proof.
  unfold field_default. intros H [E | E]; rewrite E in H; cbn in H; congruence.
Qed.

(** Routing of a verified, decodable, valid delivery. *)
Lemma post_valid py_str json_loads sig_valid s req p ev :
  wh_verify sig_valid req = true -> json_loads (body req) = Some p ->
  validate_event py_str p = Some ev ->
  post py_str json_loads sig_valid s req =
  let type := ClerkWebhookEvent.type ev in
  if String.eqb type "user.created" || String.eqb type "user.updated"
  then sync_user s (ClerkWebhookEvent.data ev)
  else if String.eqb type "user.deleted" then delete_user s (ClerkUser.id (ClerkWebhookEvent.data ev))
  else (ok "Event ignored", s).
Proof.
  intros Hv Hj He. unfold post. rewrite Hv, Hj. simpl. unfold handle_payload. rewrite He. reflexivity.
Qed.

(** ** C1: create-or-update *)

(** C1 (amended).  For a verified, schema-valid [user.created] or
    [user.updated] delivery, with [d] the mapped fields ([is_signedin] is
    always true): when no other row holds the resolved primary email, an
    absent identifier gets a new row whose mapped fields are [d] ("User
    created") and a present one has every mapped field overwritten by [d]
    ("User updated"); when another row holds that email the unique
    constraint raises, the request ends in a server error and the table is
    unchanged. *)
Theorem post_sync_upsert py_str json_loads sig_valid (s : table) req p ev :
  wh_verify sig_valid req = true -> json_loads (body req) = Some p ->
  validate_event py_str p = Some ev ->
  ClerkWebhookEvent.type ev = "user.created" \/ ClerkWebhookEvent.type ev = "user.updated" ->
  let u := ClerkWebhookEvent.data ev in
  let k := ClerkUser.id u in
  let d := sync_defaults u in
  Defaults.is_signedin d = true /\
  (email_taken s k (Defaults.primary_email d) = false ->
     (s !! k = None ->
        post py_str json_loads sig_valid s req = (ok "User created", <[k := new_row k d]> s) /\
        mapped_fields (new_row k d) = d) /\
     (forall old, s !! k = Some old ->
        post py_str json_loads sig_valid s req = (ok "User updated", <[k := set_defaults old d]> s) /\
        mapped_fields (set_defaults old d) = d)) /\
  (email_taken s k (Defaults.primary_email d) = true ->
     post py_str json_loads sig_valid s req = (ServerError, s)).
Proof.
  intros Hv Hj He Ht. cbv zeta.
  rewrite (post_valid _ _ _ _ _ _ _ Hv Hj He). cbv zeta.
  assert (Hs : (String.eqb (ClerkWebhookEvent.type ev) "user.created"
                || String.eqb (ClerkWebhookEvent.type ev) "user.updated") = true)
    by (destruct Ht as [-> | ->]; reflexivity).
  rewrite Hs, sync_user_eq. cbv zeta.
  split; [reflexivity |]. split.
  - intros T. rewrite T. split.
    + intros E. rewrite E. split; [reflexivity |]. destruct (sync_defaults _); reflexivity.
    + intros old E. rewrite E. split; [reflexivity |]. destruct (sync_defaults _); reflexivity.
  - intros T. rewrite T. reflexivity.
Qed.

(** C1 counterexample.  A signed [user.created] for the new identifier
    [user_123] whose email [user_456] already holds: no "User created", the
    request fails with a server error. *)
Lemma post_sync_create_collision :
  store_456 !! "user_123" = None /\
  post str_of_py (loads_as (envelope "user.created" (user_123_data "test@example.com"))) accept_all
    store_456 req_signed = (ServerError, store_456).
Proof. split; vm_compute; reflexivity. Qed.

Lemma post_sync_upsert_witness :
  post str_of_py (loads_as (envelope "user.created" (user_123_data "test@example.com"))) accept_all
    (∅ : table) req_signed
  = (ok "User created", {["user_123" := new_row "user_123" (sync_defaults (user_123 "test@example.com"))]}).
Proof.
  destruct (post_sync_upsert str_of_py (loads_as (envelope "user.created" (user_123_data "test@example.com")))
              accept_all (∅ : table) req_signed (envelope "user.created" (user_123_data "test@example.com"))
              (ClerkWebhookEvent.mk "user.created" (user_123 "test@example.com"))
              eq_refl eq_refl ltac:(vm_compute; reflexivity) (or_introl eq_refl)) as (_ & Hok & _).
  destruct (Hok ltac:(vm_compute; reflexivity)) as [Hnew _].
  exact (proj1 (Hnew eq_refl)).
Defined.

Lemma sync_user_success_row (s : table) u new :
  fst (sync_user s u) <> ServerError ->
  snd (sync_user s u) !! ClerkUser.id u = Some new ->
  mapped_fields new = sync_defaults u.
Proof.
  rewrite sync_user_eq. cbv zeta.
  destruct (email_taken _ _ _); [intros H; cbn in H; congruence | intros _].
  destruct (s !! ClerkUser.id u); cbn; rewrite lookup_insert_eq; intros [= <-];
    destruct (sync_defaults u); reflexivity.
Qed.

(** ** C2: primary email and phone *)

Lemma next_email_match pid (l : list ClerkEmail.t) dflt e :
  In e l -> Some (ClerkEmail.id e) = pid ->
  (forall e', In e' l -> Some (ClerkEmail.id e') = pid ->
     ClerkEmail.email_address e' = ClerkEmail.email_address e) ->
  next_email pid l dflt = ClerkEmail.email_address e.
Proof.
  induction l as [|x l IH]; cbn; intros Hin Hid Hall; [contradiction |].
  case_bool_decide as Hx.
  - apply Hall; [left; reflexivity | exact Hx].
  - destruct Hin as [<- | Hin]; [contradiction | apply IH; auto].
Qed.

Lemma next_email_no_match pid (l : list ClerkEmail.t) dflt :
  (forall e, In e l -> Some (ClerkEmail.id e) <> pid) -> next_email pid l dflt = dflt.
Proof.
  induction l as [|x l IH]; cbn; intros Hn; [reflexivity |].
  rewrite bool_decide_false by (apply Hn; left; reflexivity). auto.
Qed.

Lemma next_phone_match pid (l : list ClerkPhone.t) dflt p :
  In p l -> Some (ClerkPhone.id p) = pid ->
  (forall p', In p' l -> Some (ClerkPhone.id p') = pid ->
     ClerkPhone.phone_number p' = ClerkPhone.phone_number p) ->
  next_phone pid l dflt = ClerkPhone.phone_number p.
Proof.
  induction l as [|x l IH]; cbn; intros Hin Hid Hall; [contradiction |].
  case_bool_decide as Hx.
  - apply Hall; [left; reflexivity | exact Hx].
  - destruct Hin as [<- | Hin]; [contradiction | apply IH; auto].
Qed.

Lemma next_phone_no_match pid (l : list ClerkPhone.t) dflt :
  (forall p, In p l -> Some (ClerkPhone.id p) <> pid) -> next_phone pid l dflt = dflt.
Proof.
  induction l as [|x l IH]; cbn; intros Hn; [reflexivity |].
  rewrite bool_decide_false by (apply Hn; left; reflexivity). auto.
Qed.

(** C2.  The mapped primary email is the address of the entry whose id is
    [primary_email_address_id], wherever it sits in the list (all entries
    carrying that id agreeing on the address); with no matching entry (the
    pointer absent or stale) it is the first entry's address; with an empty
    list it is [""].  The same holds for the phone over [phone_numbers] and
    [primary_phone_number_id]. *)
Theorem primary_contact_resolution (u : ClerkUser.t) :
  let pid := ClerkUser.primary_email_address_id u in
  let qid := ClerkUser.primary_phone_number_id u in
  let email := Defaults.primary_email (sync_defaults u) in
  let phone := Defaults.phone_number (sync_defaults u) in
  (forall e, In e (ClerkUser.email_addresses u) -> Some (ClerkEmail.id e) = pid ->
     (forall e', In e' (ClerkUser.email_addresses u) -> Some (ClerkEmail.id e') = pid ->
        ClerkEmail.email_address e' = ClerkEmail.email_address e) ->
     email = ClerkEmail.email_address e) /\
  (forall e0 rest, ClerkUser.email_addresses u = e0 :: rest ->
     (forall e, In e (e0 :: rest) -> Some (ClerkEmail.id e) <> pid) ->
     email = ClerkEmail.email_address e0) /\
  (ClerkUser.email_addresses u = [] -> email = "") /\
  (forall p, In p (ClerkUser.phone_numbers u) -> Some (ClerkPhone.id p) = qid ->
     (forall p', In p' (ClerkUser.phone_numbers u) -> Some (ClerkPhone.id p') = qid ->
        ClerkPhone.phone_number p' = ClerkPhone.phone_number p) ->
     phone = ClerkPhone.phone_number p) /\
  (forall p0 rest, ClerkUser.phone_numbers u = p0 :: rest ->
     (forall p, In p (p0 :: rest) -> Some (ClerkPhone.id p) <> qid) ->
     phone = ClerkPhone.phone_number p0) /\
  (ClerkUser.phone_numbers u = [] -> phone = "").
Proof.
  cbv zeta. cbn [sync_defaults Defaults.primary_email Defaults.phone_number].
  unfold resolve_primary_email, resolve_primary_phone.
  destruct (ClerkUser.email_addresses u) as [|e0 l] eqn:E;
  destruct (ClerkUser.phone_numbers u) as [|p0 m] eqn:F;
  cbv beta iota delta [or_empty];
  repeat split; intros; try contradiction; try discriminate; try reflexivity;
  repeat match goal with H : _ :: _ = _ :: _ |- _ => injection H as <- <- end;
  first [ solve [apply next_email_no_match; auto] | solve [apply next_email_match; auto]
        | solve [apply next_phone_no_match; auto] | solve [apply next_phone_match; auto] ].
Qed.

Lemma primary_contact_resolution_witness :
  Defaults.primary_email (sync_defaults (user_123 "test@example.com")) = "test@example.com".
Proof.
  destruct (primary_contact_resolution (user_123 "test@example.com")) as [Hm _].
  apply (Hm (ClerkEmail.mk "email_1" "test@example.com")).
  - left; reflexivity.
  - reflexivity.
  - intros e' [<- | []] _; reflexivity.
Defined.

(** ** C4: delete *)

(** C4.  [delete_user] always answers "User deleted"; afterwards no row has
    the identifier and every other row is untouched; on an absent identifier
    the table is unchanged, and deleting twice is deleting once. *)
Theorem delete_user_idempotent (s : table) (k : string) :
  fst (delete_user s k) = ok "User deleted" /\
  snd (delete_user s k) !! k = None /\
  (forall k', k' <> k -> snd (delete_user s k) !! k' = s !! k') /\
  (s !! k = None -> snd (delete_user s k) = s) /\
  delete_user (snd (delete_user s k)) k = delete_user s k.
Proof.
  cbn [delete_user fst snd]. split; [reflexivity |]. split; [apply lookup_delete_eq |]. split.
  - intros k' Hne. apply lookup_delete_ne. congruence.
  - split; [apply delete_id | unfold delete_user; rewrite delete_delete_eq; reflexivity].
Qed.

Lemma delete_user_idempotent_witness :
  snd (delete_user store_456 "non_existent_user") = store_456.
Proof.
  destruct (delete_user_idempotent store_456 "non_existent_user") as (_ & _ & _ & Habs & _).
  apply Habs. vm_compute. reflexivity.
Defined.

(** ** C6: unknown event types *)

(** C6.  A verified, schema-valid delivery whose type is none of
    [user.created], [user.updated], [user.deleted] is answered 200 "Event
    ignored" and leaves the table as it was. *)
Theorem post_unknown_type_ignored py_str json_loads sig_valid (s : table) req p ev :
  wh_verify sig_valid req = true -> json_loads (body req) = Some p ->
  validate_event py_str p = Some ev ->
  ClerkWebhookEvent.type ev <> "user.created" -> ClerkWebhookEvent.type ev <> "user.updated" ->
  ClerkWebhookEvent.type ev <> "user.deleted" ->
  post py_str json_loads sig_valid s req = (ok "Event ignored", s).
Proof.
  intros Hv Hj He H1 H2 H3. rewrite (post_valid _ _ _ _ _ _ _ Hv Hj He). cbv zeta.
  apply String.eqb_neq in H1, H2, H3. rewrite H1, H2, H3. reflexivity.
Qed.

Lemma post_unknown_type_ignored_witness :
  post str_of_py (loads_as (envelope "session.created" [("id", PStr "user_9")])) accept_all
    store_456 req_signed = (ok "Event ignored", store_456).
Proof.
  apply (post_unknown_type_ignored _ _ _ _ _ (envelope "session.created" [("id", PStr "user_9")])
           (ClerkWebhookEvent.mk "session.created" user_9)); try reflexivity;
    try (vm_compute; reflexivity); discriminate.
Defined.

(** ** C7: [locked] and [banned] *)

(** C7.  [sync_user] keeps [locked] and [banned] of an existing row, gives a
    newly inserted row the model default [false] for both, and touches no
    other row. *)
Theorem sync_user_frame_locked_banned (s : table) (u : ClerkUser.t) :
  let k := ClerkUser.id u in
  (forall old new, s !! k = Some old -> snd (sync_user s u) !! k = Some new ->
     TenantUser.locked new = TenantUser.locked old /\ TenantUser.banned new = TenantUser.banned old) /\
  (s !! k = None -> forall new, snd (sync_user s u) !! k = Some new ->
     TenantUser.locked new = false /\ TenantUser.banned new = false) /\
  (forall k', k' <> k -> snd (sync_user s u) !! k' = s !! k').
Proof.
  cbv zeta. rewrite sync_user_eq. cbv zeta.
  destruct (email_taken _ _ _); cbn.
  - split; [intros old new E1 E2; rewrite E1 in E2; injection E2 as <-; auto |].
    split; [intros E1 new E2; congruence | reflexivity].
  - destruct (s !! ClerkUser.id u) as [o|] eqn:E; cbn.
    + split; [intros old new E1 E2; rewrite lookup_insert_eq in E2; injection E2 as <-;
              injection E1 as <-; auto |].
      split; [discriminate |]. intros k' Hne. apply lookup_insert_ne. congruence.
    + split; [discriminate |]. split.
      * intros _ new E2. rewrite lookup_insert_eq in E2. injection E2 as <-. auto.
      * intros k' Hne. apply lookup_insert_ne. congruence.
Qed.

Lemma sync_user_frame_locked_banned_witness :
  TenantUser.locked (new_row "user_123" (sync_defaults (user_123 "test@example.com"))) = false.
Proof.
  destruct (sync_user_frame_locked_banned ∅ (user_123 "test@example.com")) as (_ & Hnew & _).
  apply (Hnew eq_refl). vm_compute. reflexivity.
Defined.

(** ** C10: absent timestamps *)

(** C10.  When a validated payload omits [created_at], [updated_at] or
    [last_active_at] (or gives [null]), the validated field is [None] and a
    successful sync stores [""] for it. *)
Theorem sync_user_absent_timestamps py_str d u (s : table) new :
  validate_user_dict py_str d = Some u ->
  fst (sync_user s u) <> ServerError ->
  snd (sync_user s u) !! ClerkUser.id u = Some new ->
  ((dget "created_at" d = None \/ dget "created_at" d = Some PNone) ->
     ClerkUser.created_at u = None /\ TenantUser.created_at new = "") /\
  ((dget "updated_at" d = None \/ dget "updated_at" d = Some PNone) ->
     ClerkUser.updated_at u = None /\ TenantUser.updated_at new = "") /\
  ((dget "last_active_at" d = None \/ dget "last_active_at" d = Some PNone) ->
     ClerkUser.last_active_at u = None /\ TenantUser.last_active_at new = "").
Proof.
  intros Hv Hok Hnew.
  pose proof (sync_user_success_row s u new Hok Hnew) as Hm.
  destruct (validate_user_dict_fields _ _ _ Hv) as (Hc & Hu & Hl).
  assert (Ec : TenantUser.created_at new = or_empty (ClerkUser.created_at u))
    by (change (Defaults.created_at (mapped_fields new) = Defaults.created_at (sync_defaults u)); congruence).
  assert (Eu : TenantUser.updated_at new = or_empty (ClerkUser.updated_at u))
    by (change (Defaults.updated_at (mapped_fields new) = Defaults.updated_at (sync_defaults u)); congruence).
  assert (El : TenantUser.last_active_at new = or_empty (ClerkUser.last_active_at u))
    by (change (Defaults.last_active_at (mapped_fields new) = Defaults.last_active_at (sync_defaults u)); congruence).
  split; [| split]; intros Ha;
    match goal with
    | |- ClerkUser.created_at u = None /\ _ =>
        pose proof (timestamp_none_of_absent _ _ _ _ Hc Ha) as Hn
    | |- ClerkUser.updated_at u = None /\ _ =>
        pose proof (timestamp_none_of_absent _ _ _ _ Hu Ha) as Hn
    | |- ClerkUser.last_active_at u = None /\ _ =>
        pose proof (timestamp_none_of_absent _ _ _ _ Hl Ha) as Hn
    end; (split; [exact Hn | rewrite ?Ec, ?Eu, ?El, Hn; reflexivity]).
Qed.

Lemma sync_user_absent_timestamps_witness :
  TenantUser.created_at (new_row "user_9" (sync_defaults user_9)) = "".
Proof.
  destruct (sync_user_absent_timestamps str_of_py [("id", PStr "user_9")] user_9 ∅
              (new_row "user_9" (sync_defaults user_9))
              ltac:(vm_compute; reflexivity) ltac:(vm_compute; discriminate)
              ltac:(vm_compute; reflexivity)) as (Hc & _ & _).
  apply (Hc (or_introl eq_refl)).
Defined.

(** ** C3: the two client errors *)

Lemma sync_user_outcome (s : table) u :
  fst (sync_user s u) = ServerError \/ exists m, fst (sync_user s u) = ok m.
Proof.
  rewrite sync_user_eq. cbv zeta. destruct (email_taken _ _ _); [left; reflexivity | right].
  destruct (s !! _); eexists; reflexivity.
Qed.

Lemma post_server_error_store py_str json_loads sig_valid (s : table) req :
  fst (post py_str json_loads sig_valid s req) = ServerError ->
  snd (post py_str json_loads sig_valid s req) = s.
Proof.
  unfold post. destruct (negb _); [discriminate |].
  destruct (json_loads (body req)) as [p|]; [| discriminate].
  unfold handle_payload. destruct (validate_event py_str p) as [ev|]; [| discriminate].
  destruct (_ || _).
  - rewrite sync_user_eq. cbv zeta. destruct (email_taken _ _ _); [reflexivity |].
    destruct (s !! _); discriminate.
  - destruct (String.eqb _ _); discriminate.
Qed.

(** When a request ends in a server error: a verified, valid
    [user.created] or [user.updated] event whose resolved [primary_email] is
    held by a row with another identifier. *)
Lemma post_server_error_iff py_str json_loads sig_valid (s : table) req :
  fst (post py_str json_loads sig_valid s req) = ServerError <->
  wh_verify sig_valid req = true /\
  exists p ev, json_loads (body req) = Some p /\ validate_event py_str p = Some ev /\
    (ClerkWebhookEvent.type ev = "user.created" \/ ClerkWebhookEvent.type ev = "user.updated") /\
    exists k' r, s !! k' = Some r /\ k' <> ClerkUser.id (ClerkWebhookEvent.data ev) /\
      TenantUser.primary_email r = Defaults.primary_email (sync_defaults (ClerkWebhookEvent.data ev)).
Proof.
  split.
  - intros H. unfold post in H.
    destruct (wh_verify sig_valid req) eqn:Hv; [| discriminate H].
    split; [reflexivity |].
    destruct (json_loads (body req)) as [p|] eqn:Hj; [| discriminate H].
    unfold handle_payload in H.
    destruct (validate_event py_str p) as [ev|] eqn:He; [| discriminate H].
    exists p, ev. split; [reflexivity | split; [exact He |]].
    cbv zeta in H.
    destruct (String.eqb (ClerkWebhookEvent.type ev) "user.created" ||
              String.eqb (ClerkWebhookEvent.type ev) "user.updated") eqn:Ht.
    + apply orb_true_iff in Ht.
      split; [destruct Ht as [Ht | Ht]; apply String.eqb_eq in Ht; [left | right]; exact Ht |].
      rewrite sync_user_eq in H. cbv zeta in H.
      destruct (email_taken _ _ _) eqn:T.
      * apply email_taken_true in T. destruct T as (k' & r & Hk & Hn & Hr).
        exists k', r. auto.
      * destruct (s !! _); discriminate H.
    + destruct (String.eqb _ "user.deleted"); discriminate H.
  - intros (Hv & p & ev & Hj & He & Ht & k' & r & Hk & Hn & Hr).
    rewrite (post_valid _ _ _ _ _ _ _ Hv Hj He). cbv zeta.
    replace (String.eqb (ClerkWebhookEvent.type ev) "user.created" ||
             String.eqb (ClerkWebhookEvent.type ev) "user.updated") with true
      by (destruct Ht as [-> | ->]; reflexivity).
    rewrite sync_user_eq. cbv zeta.
    destruct (email_taken _ _ _) eqn:T; [reflexivity |].
    exfalso. exact (email_taken_false _ _ _ T k' r Hk Hn Hr).
Qed.

(** C3 (amended).  A request missing a signature header fails
    verification; a request failing verification gets 400 "Invalid webhook
    signature", and a verified one whose body does not decode to a valid
    event gets 400 "Invalid payload format", both with the table unchanged.
    A 400 is answered exactly in these two cases; every other request is
    answered 200, except that a verified, valid [user.created] or
    [user.updated] event whose resolved [primary_email] another row already
    holds ends in a server error (the unique constraint raises), and exactly
    such requests do; the table is then unchanged. *)
Theorem post_error_responses py_str json_loads sig_valid (s : table) (req : request) :
  (present (svix_id req) && present (svix_timestamp req) && present (svix_signature req) = false ->
     wh_verify sig_valid req = false) /\
  (wh_verify sig_valid req = false ->
     post py_str json_loads sig_valid s req = (bad "Invalid webhook signature", s)) /\
  (wh_verify sig_valid req = true -> payload_rejected py_str json_loads req = true ->
     post py_str json_loads sig_valid s req = (bad "Invalid payload format", s)) /\
  ((exists key message, fst (post py_str json_loads sig_valid s req) = Respond 400 key message) <->
     wh_verify sig_valid req = false \/ payload_rejected py_str json_loads req = true) /\
  ((exists message, fst (post py_str json_loads sig_valid s req) = ok message) \/
   (fst (post py_str json_loads sig_valid s req) = ServerError /\
    snd (post py_str json_loads sig_valid s req) = s) \/
   (exists key message, fst (post py_str json_loads sig_valid s req) = Respond 400 key message)) /\
  (fst (post py_str json_loads sig_valid s req) = ServerError <->
   wh_verify sig_valid req = true /\
   exists p ev, json_loads (body req) = Some p /\ validate_event py_str p = Some ev /\
     (ClerkWebhookEvent.type ev = "user.created" \/ ClerkWebhookEvent.type ev = "user.updated") /\
     exists k' r, s !! k' = Some r /\ k' <> ClerkUser.id (ClerkWebhookEvent.data ev) /\
       TenantUser.primary_email r = Defaults.primary_email (sync_defaults (ClerkWebhookEvent.data ev))).
Proof.
  assert (Hsig : wh_verify sig_valid req = false ->
                 post py_str json_loads sig_valid s req = (bad "Invalid webhook signature", s))
    by (intros H; unfold post; rewrite H; reflexivity).
  assert (Hpay : wh_verify sig_valid req = true -> payload_rejected py_str json_loads req = true ->
                 post py_str json_loads sig_valid s req = (bad "Invalid payload format", s)).
  { intros Hv Hr. unfold post. rewrite Hv. cbn [negb]. unfold payload_rejected in Hr.
    destruct (json_loads (body req)) as [p|]; [| reflexivity].
    unfold handle_payload. destruct (validate_event py_str p); [discriminate | reflexivity]. }
  assert (Hrest : wh_verify sig_valid req = true -> payload_rejected py_str json_loads req = false ->
                  (exists message, fst (post py_str json_loads sig_valid s req) = ok message) \/
                  fst (post py_str json_loads sig_valid s req) = ServerError).
  { intros Hv Hr. unfold payload_rejected in Hr.
    destruct (json_loads (body req)) as [p|] eqn:Hj; [| discriminate].
    destruct (validate_event py_str p) as [ev|] eqn:He; [| discriminate].
    rewrite (post_valid _ _ _ _ _ _ _ Hv Hj He). cbv zeta.
    destruct (_ || _).
    - destruct (sync_user_outcome s (ClerkWebhookEvent.data ev)) as [H | H]; [right | left]; exact H.
    - destruct (String.eqb _ _); left; eexists; reflexivity. }
  split; [| split; [exact Hsig | split; [exact Hpay | split]]].
  - unfold wh_verify. intros H.
    destruct (svix_id req), (svix_timestamp req), (svix_signature req); try reflexivity.
    cbn [present] in H |- *. rewrite H. reflexivity.
  - split.
    + intros (key & message & H).
      destruct (wh_verify sig_valid req) eqn:Hv; [| left; reflexivity].
      destruct (payload_rejected py_str json_loads req) eqn:Hr; [right; reflexivity |].
      destruct (Hrest eq_refl eq_refl) as [[m Hm] | Hm]; rewrite Hm in H; discriminate.
    + intros [Hv | Hr].
      * rewrite Hsig by exact Hv. eexists _, _; reflexivity.
      * destruct (wh_verify sig_valid req) eqn:Hv;
          [rewrite (Hpay eq_refl Hr) | rewrite (Hsig eq_refl)]; eexists _, _; reflexivity.
  - split; [| apply post_server_error_iff].
    destruct (wh_verify sig_valid req) eqn:Hv; [| right; right; rewrite (Hsig eq_refl); eexists _, _; reflexivity].
    destruct (payload_rejected py_str json_loads req) eqn:Hr;
      [right; right; rewrite (Hpay eq_refl eq_refl); eexists _, _; reflexivity |].
    destruct (Hrest eq_refl eq_refl) as [Hm | Hm]; [left; exact Hm | right; left].
    split; [exact Hm | apply post_server_error_store; exact Hm].
Qed.

Lemma post_error_responses_witness :
  post str_of_py (loads_as (PDict [("type", PStr "user.created"); ("data", PDict [("invalid", PStr "structure")])]))
    accept_all store_456 req_signed = (bad "Invalid payload format", store_456).
Proof.
  destruct (post_error_responses str_of_py
              (loads_as (PDict [("type", PStr "user.created"); ("data", PDict [("invalid", PStr "structure")])]))
              accept_all store_456 req_signed) as (_ & _ & Hpay & _).
  apply Hpay; vm_compute; reflexivity.
Defined.

(** C3 counterexample.  A signed, valid [user.updated] moving [user_123] to
    the address [user_456] holds: neither check fails, yet the request ends
    in an error (a server error), not a success. *)
Lemma post_error_without_check_failure :
  wh_verify accept_all req_signed = true /\
  payload_rejected str_of_py (loads_as (envelope "user.updated" (user_123_data "test@example.com")))
    req_signed = false /\
  post str_of_py (loads_as (envelope "user.updated" (user_123_data "test@example.com"))) accept_all
    store_two req_signed = (ServerError, store_two).
Proof. split; [| split]; vm_compute; reflexivity. Qed.

(** ** C8: uniqueness of [primary_email] *)

Lemma sync_user_emails_unique (s : table) u :
  emails_unique s -> emails_unique (snd (sync_user s u)).
Proof.
  intros Hu. destruct (sync_user_store s u) as [-> | (T & r & -> & Hr)]; [exact Hu |].
  pose proof (email_taken_false _ _ _ T) as Hfree.
  intros k1 k2 r1 r2 E1 E2 Heq.
  destruct (decide (k1 = ClerkUser.id u)) as [-> | N1];
  destruct (decide (k2 = ClerkUser.id u)) as [-> | N2]; try reflexivity.
  - rewrite lookup_insert_eq in E1. rewrite lookup_insert_ne in E2 by congruence.
    injection E1 as <-. exfalso. apply (Hfree k2 r2 E2 N2). congruence.
  - rewrite lookup_insert_eq in E2. rewrite lookup_insert_ne in E1 by congruence.
    injection E2 as <-. exfalso. apply (Hfree k1 r1 E1 N1). congruence.
  - rewrite lookup_insert_ne in E1, E2 by congruence. exact (Hu k1 k2 r1 r2 E1 E2 Heq).
Qed.

Lemma post_emails_unique py_str json_loads sig_valid (s : table) req :
  emails_unique s -> emails_unique (snd (post py_str json_loads sig_valid s req)).
Proof.
  intros Hu.
  destruct (post_store py_str json_loads sig_valid s req) as [-> | [[k ->] | [u ->]]].
  - exact Hu.
  - intros k1 k2 r1 r2 E1 E2. apply lookup_delete_Some in E1 as [_ E1].
    apply lookup_delete_Some in E2 as [_ E2]. exact (Hu k1 k2 r1 r2 E1 E2).
  - apply sync_user_emails_unique. exact Hu.
Qed.

(** C8 (amended).  The unique constraint is kept by every delivery: after
    any sequence of requests from the empty table, no two rows hold the
    same [primary_email]. *)
Theorem run_emails_unique py_str json_loads sig_valid (reqs : list request) :
  emails_unique (run py_str json_loads sig_valid ∅ reqs).
Proof.
  assert (H : forall s, emails_unique s -> emails_unique (run py_str json_loads sig_valid s reqs)).
  { induction reqs as [|r reqs IH]; intros s Hs; [exact Hs |].
    cbn [run]. apply IH, post_emails_unique, Hs. }
  apply H. intros k1 k2 r1 r2 E1. rewrite lookup_empty in E1. discriminate.
Qed.

(** C8 counterexample.  No state reached by the webhook holds two rows
    with distinct identifiers and the same [primary_email]. *)
Lemma no_reachable_duplicate_email :
  ~ exists (py_str : pyval -> string) (json_loads : string -> option pyval)
      (sig_valid : string -> string -> string -> string -> bool) (reqs : list request)
      (k1 k2 : string) (r1 r2 : TenantUser.t),
      run py_str json_loads sig_valid ∅ reqs !! k1 = Some r1 /\
      run py_str json_loads sig_valid ∅ reqs !! k2 = Some r2 /\
      k1 <> k2 /\ TenantUser.primary_email r1 = TenantUser.primary_email r2.
Proof.
  intros (ps & jl & sv & reqs & k1 & k2 & r1 & r2 & E1 & E2 & Hne & Heq).
  exact (Hne (run_emails_unique ps jl sv reqs k1 k2 r1 r2 E1 E2 Heq)).
Qed.

(** ** C9: unknown fields *)

Lemma dget_app k (l1 l2 : list (string * pyval)) :
  dget k (l1 ++ l2) = match dget k l1 with Some v => Some v | None => dget k l2 end.
Proof.
  induction l1 as [|[k' v] l1 IH]; cbn; [reflexivity |].
  destruct (String.eqb k k'); [reflexivity | exact IH].
Qed.

Lemma dget_unknown k (extra : list (string * pyval)) :
  forallb (fun kv => negb (String.eqb (fst kv) k)) extra = true -> dget k extra = None.
Proof.
  induction extra as [|[k' v] extra IH]; cbn; [reflexivity |].
  intros [H1 H2]%andb_true_iff. rewrite String.eqb_sym.
  destruct (String.eqb k' k); [discriminate | exact (IH H2)].
Qed.

Lemma dget_skip_extra k d1 extra d2 :
  forallb (fun kv => negb (String.eqb (fst kv) k)) extra = true ->
  dget k (d1 ++ extra ++ d2) = dget k (d1 ++ d2).
Proof.
  intros H. rewrite !dget_app, (dget_unknown k extra H). reflexivity.
Qed.

(** The validator reads a dict only through the declared keys. *)
Lemma validate_user_dict_ext py_str d d' :
  (forall k, In k clerk_user_fields -> dget k d = dget k d') ->
  validate_user_dict py_str d = validate_user_dict py_str d'.
Proof.
  intros H. unfold validate_user_dict, field_required, field_default.
  rewrite !H by (cbn; tauto). reflexivity.
Qed.

Lemma unknown_user_keys_skip extra k :
  unknown_user_keys extra = true -> In k clerk_user_fields ->
  forallb (fun kv => negb (String.eqb (fst kv) k)) extra = true.
Proof.
  unfold unknown_user_keys. intros H Hk. apply forallb_forall. intros kv Hin.
  pose proof (proj1 (forallb_forall _ _) H kv Hin) as Hkv. cbv beta in Hkv.
  apply negb_true_iff. apply negb_true_iff in Hkv.
  destruct (String.eqb (fst kv) k) eqn:E; [| reflexivity].
  apply String.eqb_eq in E. rewrite <- Hkv. symmetry. apply (proj2 (existsb_exists _ _)).
  exists k. split; [exact Hk | rewrite E; apply String.eqb_refl].
Qed.

(** C9.  Extra keys the schema does not declare, inserted anywhere in the
    [data] object and appended to the envelope, change neither the
    validation result (a valid body stays valid, with the same event) nor
    what the handler does with it. *)
Theorem validation_ignores_unknown_fields py_str (s : table) (type : pyval)
    (d1 d2 extra top_extra : list (string * pyval)) :
  unknown_user_keys extra = true -> unknown_event_keys top_extra = true ->
  let with_extra := PDict ([("type", type); ("data", PDict (d1 ++ extra ++ d2))] ++ top_extra) in
  let without := PDict [("type", type); ("data", PDict (d1 ++ d2))] in
  validate_event py_str with_extra = validate_event py_str without /\
  handle_payload py_str s with_extra = handle_payload py_str s without.
Proof.
  intros Hx Ht. cbv zeta.
  assert (Hv : validate_event py_str (PDict ([("type", type); ("data", PDict (d1 ++ extra ++ d2))] ++ top_extra))
             = validate_event py_str (PDict [("type", type); ("data", PDict (d1 ++ d2))])).
  { cbn [validate_event field_required dget app String.eqb]. cbn.
    destruct (v_str type); [cbn | reflexivity].
    unfold validate_user.
    rewrite (validate_user_dict_ext py_str (d1 ++ extra ++ d2) (d1 ++ d2)); [reflexivity |].
    intros k Hk. apply dget_skip_extra, unknown_user_keys_skip; assumption. }
  split; [exact Hv | unfold handle_payload; rewrite Hv; reflexivity].
Qed.

Lemma validation_ignores_unknown_fields_witness :
  validate_event str_of_py
    (PDict ([("type", PStr "user.deleted"); ("data", PDict ([("id", PStr "user_123")] ++ [("deleted", PBool true)] ++ []))] ++ []))
  = Some (ClerkWebhookEvent.mk "user.deleted"
            (ClerkUser.mk "user_123" (Some "") (Some "") (Some "") (Some false) None None None [] None [] None)).
Proof.
  destruct (validation_ignores_unknown_fields str_of_py ∅ (PStr "user.deleted") [("id", PStr "user_123")] []
              [("deleted", PBool true)] [] eq_refl eq_refl) as [Hv _].
  rewrite Hv. vm_compute. reflexivity.
Defined.

(** ** C5: timestamp normalisation *)

Lemma rhe_bound n d :
  0 < d -> - d <= 2 * (n - d * round_half_even n d) <= d.
Proof.
  intros Hd. unfold round_half_even.
  pose proof (Z.div_mod n d ltac:(lia)) as Hdm. pose proof (Z.mod_pos_bound n d Hd) as Hr.
  set (q := n / d) in *. set (r := n mod d) in *.
  destruct (Z.compare_spec (2 * r) d); [destruct (Z.even q) | |]; nia.
Qed.

Lemma rhe_unique n d c :
  0 < d -> - d < 2 * (n - d * c) < d -> round_half_even n d = c.
Proof.
  intros Hd Hc. pose proof (rhe_bound n d Hd) as Hb.
  set (c' := round_half_even n d) in *.
  assert (- d < d * (c' - c) < d) by nia.
  assert (- 1 < c' - c < 1) by nia. lia.
Qed.

Lemma rhe_nonneg n d : 0 < d -> 0 <= n -> 0 <= round_half_even n d.
Proof. intros Hd Hn. pose proof (rhe_bound n d Hd). nia. Qed.

Lemma round_to_double_spec n d :
  0 < n -> 0 < d ->
  dexp (round_to_double n d) <= Z.log2 n - Z.log2 d - 52 /\
  (dexp (round_to_double n d) < 0 ->
   dnum (round_to_double n d) = round_half_even (n * 2 ^ (- dexp (round_to_double n d))) d).
Proof.
  intros Hn Hd. unfold round_to_double.
  replace (n =? 0) with false by (symmetry; apply Z.eqb_neq; lia).
  rewrite Z.abs_eq, Z.sgn_pos by lia. cbn [dexp dnum].
  set (k := if ge_scaled n d _ then _ else _).
  assert (Hk : k <= Z.log2 n - Z.log2 d - 52) by (subst k; destruct (ge_scaled _ _ _); lia).
  split; [exact Hk |]. intros Hneg.
  replace (0 <=? k) with false by (symmetry; apply Z.leb_gt; lia). lia.
Qed.

Lemma log2_lt n b : 0 < n -> 0 <= b -> n < 2 ^ b -> Z.log2 n < b.
Proof. intros Hn Hb H. apply Z.log2_lt_pow2; lia. Qed.

(** For [0 <= value < 2^32 * 1000] (instants up to 2106), the double
    [value / 1000] split into seconds and rounded microseconds gives back the
    exact whole seconds and milliseconds. *)
Lemma ms_timeval_exact v :
  0 < v < 2 ^ 32 * 1000 ->
  exists q, int_div_1000 v = Some q /\
            timestamp_to_timeval q = (v / 1000, (v mod 1000) * 1000).
Proof.
  intros Hv.
  pose proof (round_to_double_spec v 1000 ltac:(lia) ltac:(lia)) as [Hk Hm].
  set (q := round_to_double v 1000) in *.
  assert (Hlv : Z.log2 v < 42) by (apply log2_lt; lia).
  replace (Z.log2 1000) with 9 in Hk by reflexivity.
  set (K := - dexp q).
  assert (HK : 20 <= K) by lia.
  specialize (Hm ltac:(lia)). fold K in Hm.
  set (P := 2 ^ K) in *.
  assert (HP : 2 ^ 20 <= P) by (apply Z.pow_le_mono_r; lia).
  set (m := dnum q) in *.
  pose proof (rhe_bound (v * P) 1000 ltac:(lia)) as Hb. rewrite <- Hm in Hb.
  assert (Hm0 : 0 <= m) by (rewrite Hm; apply rhe_nonneg; lia).
  set (s := v / 1000). set (r := v mod 1000).
  assert (Hvr : v = 1000 * s + r) by (apply Z.div_mod; lia).
  assert (Hr : 0 <= r < 1000) by (apply Z.mod_pos_bound; lia).
  exists q. split.
  - unfold int_div_1000. fold q.
    replace (1024 <=? Z.log2 (Z.abs (dnum q)) + dexp q) with false; [reflexivity |].
    symmetry. apply Z.leb_gt. fold m. rewrite Z.abs_eq by lia.
    destruct (Z.eq_dec m 0) as [-> | Hm1]; [cbn; lia |].
    assert (Z.log2 m < 42 + K) by (apply log2_lt; [lia | lia |];
      rewrite Z.pow_add_r by lia; fold P; nia).
    lia.
  - unfold timestamp_to_timeval, modf, dbl_num, dbl_den.
    replace (0 <=? dexp q) with false by (symmetry; apply Z.leb_gt; lia).
    fold K P m.
    assert (Hip : Z.quot m P = s).
    { rewrite Z.quot_div_nonneg by lia. symmetry. apply (Z.div_unique m P s (m - s * P)); [left; nia | ring]. }
    rewrite Hip.
    set (f := m - s * P).
    assert (Hf : 0 <= f < P) by (subst f; nia).
    assert (Hus : round_half_even (if 0 <=? dexp (round_to_double (f * 1000000) P)
                                  then dnum (round_to_double (f * 1000000) P) *
                                       2 ^ dexp (round_to_double (f * 1000000) P)
                                  else dnum (round_to_double (f * 1000000) P))
                    (if 0 <=? dexp (round_to_double (f * 1000000) P) then 1
                     else 2 ^ (- dexp (round_to_double (f * 1000000) P))) = r * 1000).
    { destruct (Z.eq_dec f 0) as [Hf0 | Hf0].
      - rewrite Hf0. cbn -[Z.pow].
        assert (r = 0) by nia. subst r. rewrite H. reflexivity.
      - pose proof (round_to_double_spec (f * 1000000) P ltac:(lia) ltac:(lia)) as [Hk2 Hm2].
        set (fp := round_to_double (f * 1000000) P) in *.
        assert (Hl2 : Z.log2 (f * 1000000) < K + 20).
        { apply log2_lt; [lia | lia |]. rewrite Z.pow_add_r by lia. fold P. nia. }
        replace (Z.log2 P) with K in Hk2 by (subst P; rewrite Z.log2_pow2; lia).
        set (K2 := - dexp fp) in *.
        assert (HK2 : 33 <= K2) by lia.
        specialize (Hm2 ltac:(lia)).
        replace (0 <=? dexp fp) with false by (symmetry; apply Z.leb_gt; lia).
        fold K2. set (P2 := 2 ^ K2) in *.
        assert (HP2 : 2 ^ 33 <= P2) by (apply Z.pow_le_mono_r; lia).
        set (m2 := dnum fp) in *.
        pose proof (rhe_bound (f * 1000000 * P2) P ltac:(lia)) as Hb2. rewrite <- Hm2 in Hb2.
        apply rhe_unique; [lia |].
        set (T := 2 * (m2 - P2 * (r * 1000))).
        assert (HT : P * T = - 1000 * P2 * (2 * (v * P - 1000 * m))
                             - 2 * (f * 1000000 * P2 - P * m2))
          by (subst T f; rewrite Hvr; ring).
        assert (- (1000000 * P2 + P) <= P * T <= 1000000 * P2 + P) by nia.
        assert (1000000 * P2 + P < P * P2) by nia.
        split; nia. }
    rewrite Hus.
    replace (1000000 <=? r * 1000) with false by (symmetry; apply Z.leb_gt; lia).
    replace (r * 1000 <? 0) with false by (symmetry; apply Z.ltb_ge; lia).
    reflexivity.
Qed.

Lemma ms_to_iso_exact v :
  0 <= v < 2 ^ 32 * 1000 -> ms_to_iso v = option_map Some (spec_ms_iso v).
Proof.
  intros Hv. destruct (Z.eq_dec v 0) as [-> | Hv0]; [vm_compute; reflexivity |].
  destruct (ms_timeval_exact v ltac:(lia)) as (q & Hq & Ht).
  unfold ms_to_iso, spec_ms_iso, utcfromtimestamp. rewrite Hq, Ht.
  destruct (gmtime_datetime _ _); reflexivity.
Qed.




(** ** Further properties of the code *)

(** *** [to_iso] on integers: negative timestamps, range, format *)

Lemma round_to_double_opp n d :
  0 < n ->
  round_to_double (- n) d = Dbl (- dnum (round_to_double n d)) (dexp (round_to_double n d)).
Proof.
  intros Hn. unfold round_to_double.
  replace (- n =? 0) with false by (symmetry; apply Z.eqb_neq; lia).
  replace (n =? 0) with false by (symmetry; apply Z.eqb_neq; lia).
  rewrite Z.abs_opp, (Z.sgn_neg (- n)), (Z.sgn_pos n) by lia.
  cbn [dnum dexp]. f_equal. lia.
Qed.

(** The facts of the division [w / 1000] for [0 < w < 2^32 * 1000]: the
    double has a negative exponent, no overflow, its integral part is
    [w / 1000], and its fractional part times [10^6] rounds to a double
    within half a unit of [(w mod 1000) * 1000]. *)
Lemma ms_core w :
  0 < w < 2 ^ 32 * 1000 ->
  let q := round_to_double w 1000 in
  let P := 2 ^ (- dexp q) in
  let f := dnum q - w / 1000 * P in
  dexp q < 0 /\ int_div_1000 w = Some q /\ 0 <= dnum q /\
  Z.quot (dnum q) P = w / 1000 /\ 0 <= f < P /\
  (f = 0 -> w mod 1000 = 0) /\
  (f <> 0 ->
   let fp := round_to_double (f * 1000000) P in
   dexp fp < 0 /\
   - 2 ^ (- dexp fp) < 2 * (dnum fp - 2 ^ (- dexp fp) * (w mod 1000 * 1000)) < 2 ^ (- dexp fp)).
Proof.
  intros Hv.
  pose proof (round_to_double_spec w 1000 ltac:(lia) ltac:(lia)) as [Hk Hm].
  cbv zeta. set (q := round_to_double w 1000) in *.
  assert (Hlv : Z.log2 w < 42) by (apply log2_lt; lia).
  replace (Z.log2 1000) with 9 in Hk by reflexivity.
  set (K := - dexp q).
  assert (HK : 20 <= K) by lia.
  specialize (Hm ltac:(lia)). fold K in Hm.
  set (P := 2 ^ K) in *.
  assert (HP : 2 ^ 20 <= P) by (apply Z.pow_le_mono_r; lia).
  set (m := dnum q) in *.
  pose proof (rhe_bound (w * P) 1000 ltac:(lia)) as Hb. rewrite <- Hm in Hb.
  assert (Hm0 : 0 <= m) by (rewrite Hm; apply rhe_nonneg; lia).
  set (s := w / 1000). set (r := w mod 1000).
  assert (Hvr : w = 1000 * s + r) by (apply Z.div_mod; lia).
  assert (Hr : 0 <= r < 1000) by (apply Z.mod_pos_bound; lia).
  assert (Hf : 0 <= m - s * P < P) by nia.
  split; [lia |]. split.
  { unfold int_div_1000. fold q.
    replace (1024 <=? Z.log2 (Z.abs (dnum q)) + dexp q) with false; [reflexivity |].
    symmetry. apply Z.leb_gt. fold m. rewrite Z.abs_eq by lia.
    destruct (Z.eq_dec m 0) as [-> | Hm1]; [cbn; lia |].
    assert (Z.log2 m < 42 + K) by (apply log2_lt; [lia | lia |];
      rewrite Z.pow_add_r by lia; fold P; nia).
    lia. }
  split; [exact Hm0 |]. split.
  { rewrite Z.quot_div_nonneg by lia.
    symmetry. apply (Z.div_unique m P s (m - s * P)); [left; lia | ring]. }
  split; [exact Hf |]. split.
  { intros Hf0. assert (r = 0) by nia. exact H. }
  intros Hf0. cbv zeta.
  pose proof (round_to_double_spec ((m - s * P) * 1000000) P ltac:(lia) ltac:(lia)) as [Hk2 Hm2].
  set (f := m - s * P) in *.
  set (fp := round_to_double (f * 1000000) P) in *.
  assert (Hl2 : Z.log2 (f * 1000000) < K + 20).
  { apply log2_lt; [lia | lia |]. rewrite Z.pow_add_r by lia. fold P. nia. }
  replace (Z.log2 P) with K in Hk2 by (subst P; rewrite Z.log2_pow2; lia).
  set (K2 := - dexp fp) in *.
  assert (HK2 : 33 <= K2) by lia.
  specialize (Hm2 ltac:(lia)).
  split; [lia |].
  set (P2 := 2 ^ K2) in *.
  assert (HP2 : 2 ^ 33 <= P2) by (apply Z.pow_le_mono_r; lia).
  set (m2 := dnum fp) in *.
  pose proof (rhe_bound (f * 1000000 * P2) P ltac:(lia)) as Hb2. rewrite <- Hm2 in Hb2.
  set (T := 2 * (m2 - P2 * (r * 1000))).
  assert (HT : P * T = - 1000 * P2 * (2 * (w * P - 1000 * m))
                       - 2 * (f * 1000000 * P2 - P * m2))
    by (subst T f; rewrite Hvr; ring).
  assert (- (1000000 * P2 + P) <= P * T <= 1000000 * P2 + P) by nia.
  assert (1000000 * P2 + P < P * P2) by nia.
  split; nia.
Qed.

(** The negative half of [ms_timeval_exact]: [modf] truncates towards zero
    and the negative microseconds are carried into the seconds. *)
Lemma ms_timeval_exact_neg w :
  0 < w < 2 ^ 32 * 1000 ->
  exists q, int_div_1000 (- w) = Some q /\
            timestamp_to_timeval q = (- w / 1000, (- w mod 1000) * 1000).
Proof.
  intros Hw. pose proof (ms_core w Hw) as C. cbv zeta in C.
  destruct C as (He & Hi & Hm0 & Hq & Hf & Hf0 & Hfp).
  set (q := round_to_double w 1000) in *.
  set (P := 2 ^ (- dexp q)) in *.
  set (s := w / 1000) in *. set (r := w mod 1000) in *.
  assert (Hvr : w = 1000 * s + r) by (apply Z.div_mod; lia).
  assert (Hr : 0 <= r < 1000) by (apply Z.mod_pos_bound; lia).
  exists (Dbl (- dnum q) (dexp q)). split.
  { unfold int_div_1000 in *. rewrite round_to_double_opp by lia. fold q. cbn [dnum dexp].
    rewrite Z.abs_opp. destruct (1024 <=? _); [discriminate | reflexivity]. }
  unfold timestamp_to_timeval, modf, dbl_num, dbl_den. cbn [dnum dexp].
  replace (0 <=? dexp q) with false by (symmetry; apply Z.leb_gt; lia). fold P.
  rewrite Z.quot_opp_l, Hq by lia.
  replace ((- dnum q - - s * P) * 1000000) with (- ((dnum q - s * P) * 1000000)) by ring.
  set (f := dnum q - s * P) in *.
  destruct (Z.eq_dec f 0) as [E | E].
  - specialize (Hf0 E). rewrite E. cbn -[Z.pow].
    rewrite Z.div_opp_l_z, Z.mod_opp_l_z by lia. reflexivity.
  - destruct (Hfp E) as (He2 & Hb). clear Hfp.
    rewrite round_to_double_opp by lia. cbn [dnum dexp].
    set (fp := round_to_double (f * 1000000) P) in *.
    replace (0 <=? dexp fp) with false by (symmetry; apply Z.leb_gt; lia).
    rewrite (rhe_unique (- dnum fp) (2 ^ (- dexp fp)) (- (r * 1000))) by lia.
    destruct (Z.eq_dec r 0) as [R | R].
    + rewrite R. cbn -[Z.pow].
      rewrite Z.div_opp_l_z, Z.mod_opp_l_z by lia. reflexivity.
    + replace (1000000 <=? - (r * 1000)) with false by (symmetry; apply Z.leb_gt; lia).
      replace (- (r * 1000) <? 0) with true by (symmetry; apply Z.ltb_lt; lia).
      rewrite Z.div_opp_l_nz, Z.mod_opp_l_nz by lia.
      f_equal; subst s r; ring.
Qed.

Lemma ms_to_iso_exact_all v :
  Z.abs v < 2 ^ 32 * 1000 -> ms_to_iso v = option_map Some (spec_ms_iso v).
Proof.
  intros Hv. destruct (Z.lt_trichotomy v 0) as [Hn | [-> | Hp]].
  - destruct (ms_timeval_exact_neg (- v) ltac:(lia)) as (q & Hq & Ht).
    rewrite Z.opp_involutive in Hq, Ht.
    unfold ms_to_iso, spec_ms_iso, utcfromtimestamp. rewrite Hq, Ht.
    destruct (gmtime_datetime _ _); reflexivity.
  - vm_compute. reflexivity.
  - apply ms_to_iso_exact. lia.
Qed.

Lemma civil_year z :
  - 60000 <= z <= 60000 -> 1 <= fst (fst (civil_from_days z)) <= 9999.
Proof.
  intros H. unfold civil_from_days. cbv zeta.
  pose proof (Z.div_mod (z + 719468) 146097 ltac:(lia)) as Hd.
  pose proof (Z.mod_pos_bound (z + 719468) 146097 ltac:(lia)) as Hm.
  set (era := (z + 719468) / 146097) in *.
  assert (4 <= era <= 5) by lia.
  set (doe := z + 719468 - era * 146097).
  assert (0 <= doe < 146097) by (subst doe; lia).
  pose proof (Z.div_mod doe 1460 ltac:(lia)); pose proof (Z.mod_pos_bound doe 1460 ltac:(lia)).
  pose proof (Z.div_mod doe 36524 ltac:(lia)); pose proof (Z.mod_pos_bound doe 36524 ltac:(lia)).
  pose proof (Z.div_mod doe 146096 ltac:(lia)); pose proof (Z.mod_pos_bound doe 146096 ltac:(lia)).
  set (num := doe - doe / 1460 + doe / 36524 - doe / 146096) in *.
  assert (0 <= num < 146097) by (subst num; lia).
  pose proof (Z.div_mod num 365 ltac:(lia)); pose proof (Z.mod_pos_bound num 365 ltac:(lia)).
  assert (0 <= num / 365 <= 400) by lia.
  destruct (_ <=? 2); cbn [fst]; lia.
Qed.

Lemma gmtime_datetime_some ip us :
  - 2 ^ 32 <= ip < 2 ^ 32 ->
  gmtime_datetime ip us <> None /\
  (forall dt, gmtime_datetime ip us = Some dt -> microsecond dt = us).
Proof.
  intros Hip. unfold gmtime_datetime.
  assert (E32 : 2 ^ 32 = 4294967296) by reflexivity. rewrite E32 in Hip.
  replace (negb ((- 2 ^ 63 <=? ip) && (ip <? 2 ^ 63))) with false
    by (symmetry; apply negb_false_iff, andb_true_iff; split; [apply Z.leb_le | apply Z.ltb_lt]; lia).
  pose proof (Z.div_mod ip 86400 ltac:(lia)); pose proof (Z.mod_pos_bound ip 86400 ltac:(lia)).
  pose proof (civil_year (ip / 86400) ltac:(lia)) as Hy.
  destruct (civil_from_days (ip / 86400)) as [[y mo] d]. cbn [fst] in Hy.
  replace ((1 <=? y) && (y <=? 9999)) with true
    by (symmetry; apply andb_true_iff; split; [apply Z.leb_le | apply Z.leb_le]; lia).
  split; [discriminate | intros dt E; injection E as <-; reflexivity].
Qed.

Lemma spec_ms_iso_some v :
  Z.abs v < 2 ^ 32 * 1000 ->
  exists dt, gmtime_datetime (v / 1000) ((v mod 1000) * 1000) = Some dt /\
             spec_ms_iso v = Some (isoformat dt) /\ microsecond dt = (v mod 1000) * 1000.
Proof.
  intros Hv. destruct (gmtime_datetime_some (v / 1000) ((v mod 1000) * 1000)) as [H1 H2];
    [split; [apply Z.div_le_lower_bound | apply Z.div_lt_upper_bound]; lia |].
  destruct (gmtime_datetime _ _) as [dt|] eqn:E; [| congruence].
  exists dt. split; [reflexivity |]. split; [unfold spec_ms_iso; rewrite E; reflexivity |].
  apply H2. reflexivity.
Qed.

Lemma slen_app s1 s2 : String.length (s1 +:+ s2) = (String.length s1 + String.length s2)%nat.
Proof. induction s1 as [|c s1 IH]; simpl; [reflexivity | f_equal; exact IH]. Qed.

Lemma zpad_length w n : String.length (zpad w n) = w.
Proof.
  revert n. induction w as [|w IH]; intros n; [reflexivity |].
  cbn [zpad]. rewrite slen_app, IH. cbn. lia.
Qed.

Lemma isoformat_length t :
  String.length (isoformat t) = if microsecond t =? 0 then 19%nat else 26%nat.
Proof.
  unfold isoformat. rewrite !slen_app, !zpad_length.
  destruct (microsecond t =? 0); cbn [String.length]; [reflexivity |].
  rewrite slen_app, zpad_length. reflexivity.
Qed.

(** *** The table *)

Lemma email_taken_insert (s : table) k r e :
  email_taken (<[k := r]> s) k e = email_taken s k e.
Proof.
  unfold email_taken. f_equal. apply bool_decide_ext. split; intros H k' r' E.
  - destruct (decide (k' = k)) as [-> | N]; [left; reflexivity |].
    apply (H k' r'). rewrite lookup_insert_ne by congruence. exact E.
  - destruct (decide (k' = k)) as [-> | N]; [left; reflexivity |].
    rewrite lookup_insert_ne in E by congruence. exact (H k' r' E).
Qed.

Lemma sync_user_webhook_rows (s : table) u :
  map_Forall (fun _ r => webhook_row r) s ->
  map_Forall (fun _ r => webhook_row r) (snd (sync_user s u)).
Proof.
  intros H. rewrite sync_user_eq. cbv zeta.
  destruct (email_taken _ _ _); [exact H |].
  destruct (s !! ClerkUser.id u) as [old|] eqn:L; cbn [snd];
    apply map_Forall_insert_2; try exact H.
  - destruct (H _ _ L) as (_ & Hc & Hl & Hb). unfold webhook_row. cbn. auto.
  - unfold webhook_row. cbn. auto.
Qed.

Lemma post_webhook_rows (py_str : pyval -> string) json_loads sig_valid (s : table) req :
  map_Forall (fun _ r => webhook_row r) s ->
  map_Forall (fun _ r => webhook_row r) (snd (post py_str json_loads sig_valid s req)).
Proof.
  intros H.
  destruct (post_store py_str json_loads sig_valid s req) as [-> | [[k ->] | [u ->]]].
  - exact H.
  - apply map_Forall_delete, H.
  - apply sync_user_webhook_rows, H.
Qed.

Lemma sync_user_keeps_rows (s : table) u k :
  is_Some (s !! k) -> is_Some (snd (sync_user s u) !! k).
Proof.
  intros H. destruct (sync_user_store s u) as [-> | (_ & r & -> & _)]; [exact H |].
  rewrite lookup_insert. case_decide; [eexists; reflexivity | exact H].
Qed.

(** X: replaying a delivery.  A [user.created] or [user.updated] delivery
    that succeeded, applied again to the table it produced, changes nothing
    and answers ["User updated"]. *)
Theorem sync_user_replay (s : table) u o s' :
  sync_user s u = (o, s') -> o <> ServerError ->
  sync_user s' u = (ok "User updated", s').
Proof.
  intros H Ho. rewrite sync_user_eq in H |- *. cbv zeta in *.
  destruct (email_taken s _ _) eqn:T; [injection H as <- _; congruence |].
  destruct (s !! ClerkUser.id u) as [old|] eqn:L; injection H as <- <-;
    rewrite email_taken_insert, T, lookup_insert_eq, insert_insert_eq; reflexivity.
Qed.

Lemma sync_user_replay_witness :
  sync_user (snd (sync_user ∅ (user_123 "test@example.com"))) (user_123 "test@example.com") =
  (ok "User updated", snd (sync_user ∅ (user_123 "test@example.com"))).
Proof.
  apply (sync_user_replay ∅ (user_123 "test@example.com")
           (fst (sync_user ∅ (user_123 "test@example.com")))
           (snd (sync_user ∅ (user_123 "test@example.com"))));
    [reflexivity | vm_compute; discriminate].
Defined.

(** X: creating then deleting.  When no row has the user's identifier, a
    successful sync answers ["User created"], and deleting that identifier
    afterwards gives back exactly the table before the sync. *)
Theorem sync_then_delete (s : table) u o s' :
  s !! ClerkUser.id u = None -> sync_user s u = (o, s') -> o <> ServerError ->
  o = ok "User created" /\ delete_user s' (ClerkUser.id u) = (ok "User deleted", s).
Proof.
  intros L H Ho. rewrite sync_user_eq in H. cbv zeta in H.
  destruct (email_taken s _ _); [injection H as <- _; congruence |].
  rewrite L in H. injection H as <- <-. split; [reflexivity |].
  unfold delete_user. rewrite delete_insert_id by exact L. reflexivity.
Qed.

Lemma sync_then_delete_witness :
  delete_user (snd (sync_user store_456 (user_123 "new@example.com"))) "user_123" =
  (ok "User deleted", store_456).
Proof.
  destruct (sync_then_delete store_456 (user_123 "new@example.com")
              (fst (sync_user store_456 (user_123 "new@example.com")))
              (snd (sync_user store_456 (user_123 "new@example.com")))
              ltac:(vm_compute; reflexivity) ltac:(reflexivity)
              ltac:(vm_compute; discriminate)) as [_ H].
  exact H.
Defined.

(** X: deleting then re-creating.  After a [user.deleted] delivery for an
    identifier, a successful sync for the same identifier creates a fresh
    row: [is_creator], [locked] and [banned] are back to [false], whatever
    the deleted row held. *)
Theorem delete_then_sync_resets (s : table) u o s' :
  sync_user (snd (delete_user s (ClerkUser.id u))) u = (o, s') -> o <> ServerError ->
  o = ok "User created" /\
  exists r, s' !! ClerkUser.id u = Some r /\ TenantUser.is_creator r = false /\
            TenantUser.locked r = false /\ TenantUser.banned r = false.
Proof.
  intros H Ho. rewrite sync_user_eq in H. cbv zeta in H. cbn [delete_user snd] in H.
  destruct (email_taken _ _ _); [injection H as <- _; congruence |].
  rewrite lookup_delete_eq in H. injection H as <- <-. split; [reflexivity |].
  eexists. rewrite lookup_insert_eq. split; [reflexivity |]. cbn. auto.
Qed.

Lemma delete_then_sync_resets_witness :
  option_map TenantUser.banned (store_banned !! "user_123") = Some true /\
  exists r, snd (sync_user (snd (delete_user store_banned "user_123")) (user_123 "old@example.com"))
              !! "user_123" = Some r /\
            TenantUser.is_creator r = false /\ TenantUser.locked r = false /\
            TenantUser.banned r = false.
Proof.
  split; [vm_compute; reflexivity |].
  exact (proj2 (delete_then_sync_resets store_banned (user_123 "old@example.com")
           (fst (sync_user (snd (delete_user store_banned "user_123")) (user_123 "old@example.com")))
           (snd (sync_user (snd (delete_user store_banned "user_123")) (user_123 "old@example.com")))
           ltac:(reflexivity) ltac:(vm_compute; discriminate))).
Defined.

(** X: a delivery touches at most one row: whatever the request, there is
    one identifier outside of which the table is unchanged. *)
Theorem post_one_row py_str json_loads sig_valid (s : table) req :
  exists k, forall k', k' <> k ->
    snd (post py_str json_loads sig_valid s req) !! k' = s !! k'.
Proof.
  destruct (post_store py_str json_loads sig_valid s req) as [-> | [[k ->] | [u ->]]].
  - exists "". reflexivity.
  - exists k. intros k' N. apply lookup_delete_ne. congruence.
  - exists (ClerkUser.id u). intros k' N.
    destruct (sync_user_store s u) as [-> | (_ & r & -> & _)]; [reflexivity |].
    apply lookup_insert_ne. congruence.
Qed.

(** X: a row leaves the table only through a verified, valid
    [user.deleted] delivery for its own identifier. *)
Theorem post_removes_only_deleted py_str json_loads sig_valid (s : table) req k r :
  s !! k = Some r -> snd (post py_str json_loads sig_valid s req) !! k = None ->
  wh_verify sig_valid req = true /\
  exists p ev, json_loads (body req) = Some p /\ validate_event py_str p = Some ev /\
    ClerkWebhookEvent.type ev = "user.deleted" /\ ClerkUser.id (ClerkWebhookEvent.data ev) = k.
Proof.
  intros Hk Hn. unfold post in Hn.
  destruct (wh_verify sig_valid req) eqn:W; cbn [negb] in Hn; [| cbn in Hn; congruence].
  split; [reflexivity |].
  destruct (json_loads (body req)) as [p|] eqn:J; [| cbn in Hn; congruence].
  unfold handle_payload in Hn.
  destruct (validate_event py_str p) as [ev|] eqn:V; [| cbn in Hn; congruence].
  exists p, ev. split; [reflexivity | split; [exact V |]].
  destruct (_ || _).
  - destruct (sync_user_keeps_rows s (ClerkWebhookEvent.data ev) k ltac:(rewrite Hk; eexists; reflexivity))
      as [x Hx].
    congruence.
  - destruct (String.eqb (ClerkWebhookEvent.type ev) "user.deleted") eqn:D; [| cbn in Hn; congruence].
    apply String.eqb_eq in D. split; [exact D |].
    cbn [delete_user snd] in Hn.
    destruct (decide (ClerkUser.id (ClerkWebhookEvent.data ev) = k)) as [E | N]; [exact E |].
    rewrite lookup_delete_ne in Hn by exact N. congruence.
Qed.

Lemma post_removes_only_deleted_witness :
  exists p ev, loads_as (envelope "user.deleted" (user_123_data "old@example.com")) (body req_signed) = Some p /\
    validate_event str_of_py p = Some ev /\
    ClerkWebhookEvent.type ev = "user.deleted" /\ ClerkUser.id (ClerkWebhookEvent.data ev) = "user_123".
Proof.
  exact (proj2 (post_removes_only_deleted str_of_py
    (loads_as (envelope "user.deleted" (user_123_data "old@example.com"))) accept_all store_two
    req_signed "user_123" (old_row "user_123" "old@example.com")
    ltac:(vm_compute; reflexivity) ltac:(vm_compute; reflexivity))).
Defined.

(** X: starting from an empty table, every row the webhook ever stores is
    signed in and is neither a creator, nor locked, nor banned. *)
Theorem run_webhook_rows py_str json_loads sig_valid reqs :
  map_Forall (fun _ r => webhook_row r) (run py_str json_loads sig_valid ∅ reqs).
Proof.
  assert (H : forall s, map_Forall (fun _ r => webhook_row r) s ->
                map_Forall (fun _ r => webhook_row r) (run py_str json_loads sig_valid s reqs)).
  { induction reqs as [|r reqs IH]; intros s Hs; [exact Hs |].
    cbn [run]. apply IH, post_webhook_rows, Hs. }
  apply H, map_Forall_empty.
Qed.

(** *** [to_iso] on integers *)

(** X: an integer timestamp within 2^32 seconds of the epoch, before or
    after it (the years 1833 to 2106), is always accepted, and normalises
    to the ISO-8601 string of the exact instant: floor division gives the
    second and [(v mod 1000) * 1000] the microsecond. *)
Theorem to_iso_int_exact py_str v :
  Z.abs v < 2 ^ 32 * 1000 ->
  exists dt, gmtime_datetime (v / 1000) ((v mod 1000) * 1000) = Some dt /\
             to_iso py_str (PInt v) = Some (Some (isoformat dt)).
Proof.
  intros Hv. destruct (spec_ms_iso_some v Hv) as (dt & Hdt & Hs & _).
  exists dt. split; [exact Hdt |]. cbn [to_iso].
  rewrite ms_to_iso_exact_all by exact Hv. rewrite Hs. reflexivity.
Qed.

Lemma to_iso_int_exact_witness :
  exists dt, gmtime_datetime (-1 / 1000) ((-1 mod 1000) * 1000) = Some dt /\
             to_iso str_of_py (PInt (-1)) = Some (Some (isoformat dt)).
Proof. apply (to_iso_int_exact str_of_py (-1)). vm_compute. reflexivity. Defined.

(** X: timestamp normalisation raises only on an integer at least 2^32
    seconds away from the epoch: [None], strings, [True]/[False] and any
    other value are always accepted. *)
Theorem to_iso_raises_only_far py_str v :
  to_iso py_str v = None -> exists z, v = PInt z /\ 2 ^ 32 * 1000 <= Z.abs z.
Proof.
  intros H. destruct v as [| b | z | s | l | d]; try discriminate.
  - destruct b; vm_compute in H; discriminate.
  - exists z. split; [reflexivity |].
    destruct (Z.lt_ge_cases (Z.abs z) (2 ^ 32 * 1000)) as [Hz | Hz]; [| exact Hz].
    destruct (to_iso_int_exact py_str z Hz) as (dt & _ & E). congruence.
Qed.

Lemma to_iso_raises_only_far_witness :
  exists z, PInt (10 ^ 15) = PInt z /\ 2 ^ 32 * 1000 <= Z.abs z.
Proof. apply (to_iso_raises_only_far str_of_py). vm_compute. reflexivity. Defined.

(** X: in that range the normalised string has a fixed shape: 19
    characters ([YYYY-MM-DDTHH:MM:SS]) when the milliseconds are a whole
    second, 26 (a [.ffffff] suffix) otherwise. *)
Theorem to_iso_int_length py_str v s :
  Z.abs v < 2 ^ 32 * 1000 -> to_iso py_str (PInt v) = Some (Some s) ->
  String.length s = if v mod 1000 =? 0 then 19%nat else 26%nat.
Proof.
  intros Hv H. destruct (spec_ms_iso_some v Hv) as (dt & _ & Hs & Hus).
  cbn [to_iso] in H. rewrite ms_to_iso_exact_all, Hs in H by exact Hv.
  injection H as <-. rewrite isoformat_length, Hus.
  destruct (v mod 1000 =? 0) eqn:E; [apply Z.eqb_eq in E | apply Z.eqb_neq in E].
  - rewrite E. reflexivity.
  - replace (v mod 1000 * 1000 =? 0) with false by (symmetry; apply Z.eqb_neq; lia). reflexivity.
Qed.

Lemma to_iso_int_length_witness :
  String.length "1969-12-31T23:59:59.999000" = 26%nat.
Proof.
  apply (to_iso_int_length str_of_py (-1)); vm_compute; reflexivity.
Defined.

(** *** Validation of the payload *)

Lemma map_validate_none {A} (f : pyval -> option A) l :
  Exists (fun x => f x = None) l -> map_validate f l = None.
Proof.
  induction 1 as [x l H | x l _ IH]; cbn.
  - rewrite H. reflexivity.
  - destruct (f x); [| reflexivity]. cbn. rewrite IH. reflexivity.
Qed.

(** X: one malformed entry in [email_addresses] or [phone_numbers] (not a
    dict, or missing or non-string [id], [email_address] or
    [phone_number]) makes the whole user invalid. *)
Theorem bad_contact_entry_rejects py_str d l :
  (dget "email_addresses" d = Some (PList l) /\ Exists (fun x => validate_email x = None) l) \/
  (dget "phone_numbers" d = Some (PList l) /\ Exists (fun x => validate_phone x = None) l) ->
  validate_user_dict py_str d = None.
Proof.
  intros Hl. destruct (validate_user_dict py_str d) as [u|] eqn:V; [exfalso | reflexivity].
  destruct Hl as [[Hd He] | [Hd He]].
  - assert (N : field_default d "email_addresses" [] (v_list validate_email) = None)
      by (unfold field_default; rewrite Hd; apply map_validate_none, He).
    unfold validate_user_dict in V. peel_binds V. congruence.
  - assert (N : field_default d "phone_numbers" [] (v_list validate_phone) = None)
      by (unfold field_default; rewrite Hd; apply map_validate_none, He).
    unfold validate_user_dict in V. peel_binds V. congruence.
Qed.

Lemma bad_contact_entry_rejects_witness :
  validate_user_dict str_of_py user_bad_email_data = None.
Proof.
  apply (bad_contact_entry_rejects str_of_py user_bad_email_data
           [PDict [("id", PStr "email_1"); ("email_address", PStr "a@b.c")];
            PDict [("id", PStr "email_2")]]).
  left. split; [reflexivity |]. apply Exists_cons_tl, Exists_cons_hd. reflexivity.
Defined.

(** X: [two_factor_enabled] given as an integer other than 0 and 1 makes
    the user invalid (no truthiness coercion). *)
Theorem two_factor_int_rejects py_str d z :
  dget "two_factor_enabled" d = Some (PInt z) -> z <> 0 -> z <> 1 ->
  validate_user_dict py_str d = None.
Proof.
  intros Hd H0 H1. destruct (validate_user_dict py_str d) as [u|] eqn:V; [exfalso | reflexivity].
  assert (N : field_default d "two_factor_enabled" (Some false) v_opt_bool = None).
  { unfold field_default. rewrite Hd. unfold v_opt_bool.
    destruct z as [| [p | p |] | p]; congruence. }
  unfold validate_user_dict in V. peel_binds V. congruence.
Qed.

Lemma two_factor_int_rejects_witness :
  validate_user_dict str_of_py [("id", PStr "user_2"); ("two_factor_enabled", PInt 2)] = None.
Proof.
  apply (two_factor_int_rejects str_of_py _ 2); [reflexivity | lia | lia].
Defined.

(** X: a validated event came as a JSON object whose [type] is that
    string and whose [data] is an object whose [id] is that string: no
    other shape (a number for either, a missing key) passes. *)
Theorem validate_event_shape py_str p ev :
  validate_event py_str p = Some ev ->
  exists d dd, p = PDict d /\ dget "type" d = Some (PStr (ClerkWebhookEvent.type ev)) /\
    dget "data" d = Some (PDict dd) /\
    dget "id" dd = Some (PStr (ClerkUser.id (ClerkWebhookEvent.data ev))).
Proof.
  intros H. destruct p as [| | | | | d]; try discriminate.
  unfold validate_event, field_required in H.
  destruct (dget "type" d) as [tv|] eqn:T; [| discriminate].
  destruct tv as [| | | t | |]; try discriminate. cbn in H.
  destruct (dget "data" d) as [dv|] eqn:Dd; [| discriminate].
  destruct dv as [| | | | | dd]; try discriminate. cbn in H.
  destruct (validate_user_dict py_str dd) as [u|] eqn:U; [| discriminate].
  cbn in H. injection H as <-. cbn.
  exists d, dd. split; [reflexivity | split; [exact T | split; [exact Dd |]]].
  unfold validate_user_dict in U. peel_binds U. injection U as <-. cbn.
  unfold field_required in E. destruct (dget "id" dd) as [[]|]; cbn in E; congruence.
Qed.

Lemma validate_event_shape_witness :
  exists d dd, envelope "user.created" (user_123_data "a@b.c") = PDict d /\
    dget "type" d = Some (PStr "user.created") /\ dget "data" d = Some (PDict dd) /\
    dget "id" dd = Some (PStr "user_123").
Proof.
  exact (validate_event_shape str_of_py (envelope "user.created" (user_123_data "a@b.c"))
           (ClerkWebhookEvent.mk "user.created" (user_123 "a@b.c")) ltac:(vm_compute; reflexivity)).
Defined.

(** *** Responses *)

(** X: the endpoint gives one of six responses or a server error: status
    400 with key ["error"] and message ["Invalid webhook signature"] or
    ["Invalid payload format"], or status 200 with key ["message"] and one of
    ["User created"], ["User updated"], ["User deleted"], ["Event ignored"]. *)
Theorem post_responses py_str json_loads sig_valid (s : table) req :
  let o := fst (post py_str json_loads sig_valid s req) in
  o = ServerError \/
  (exists m, o = Respond 400 "error" m /\
             In m ["Invalid webhook signature"; "Invalid payload format"]) \/
  (exists m, o = Respond 200 "message" m /\
             In m ["User created"; "User updated"; "User deleted"; "Event ignored"]).
Proof.
  cbv zeta. unfold post.
  destruct (negb _); [right; left; eexists; split; [reflexivity | cbn; auto] |].
  destruct (json_loads (body req)) as [p|]; [| right; left; eexists; split; [reflexivity | cbn; auto]].
  unfold handle_payload. destruct (validate_event py_str p) as [ev|];
    [| right; left; eexists; split; [reflexivity | cbn; auto]].
  destruct (_ || _).
  - unfold sync_user. destruct (update_or_create _ _ _) as [[[r0 c] s0]|]; [| left; reflexivity].
    right; right. eexists. split; [reflexivity | destruct c; cbn; auto].
  - destruct (String.eqb _ _); right; right; eexists; (split; [reflexivity | cbn; auto 6]).
Qed.
